(** * Speech-Recognition-App: the recording state machine and the recogniser adapter

    A shallow embedding of [src/speech_mod.py] and [src/speech_reg.py].
    Both scripts keep their state in Streamlit's [st.session_state] and talk
    to two outside collaborators of the [speech_recognition] library: the
    microphone ([sr.Microphone], a context manager) and the recogniser
    ([sr.Recognizer]).  The collaborators are not part of the repository, so
    they are an environment [Env] whose answers are arbitrary; everything
    proved below holds for every environment.

    Python functions become computations in a small monad [M] that threads
    the session, the state of the outside world and a trace of the library
    calls that were made, and that ends by returning, by raising a Python
    [Exception], or by Streamlit's rerun request. *)

From Stdlib Require Import String List Bool Arith Lia.
Import ListNotations.
Open Scope string_scope.

(** ** Python data *)

(** The values a transcript can hold: a [str], or [None] when
    [transcribe_speech] falls off the end of its [if]/[elif] chain. *)
Inductive pyval : Type :=
| PyNone
| PyStr (s : string).

(** The exception classes the handlers of the two scripts tell apart:
    [sr.UnknownValueError], [sr.RequestError], and every other subclass of
    [Exception] ([ValueError], [OSError], [AttributeError], ...). *)
Inductive exn_class : Type :=
| UnknownValueError
| RequestError
| OtherException.

(** An exception object: its class and the text [str(e)] gives. *)
Record exn : Type := mkExn { exn_class_of : exn_class; exn_str : string }.

(** Opaque handles to the library's objects. *)
Definition Microphone : Type := nat.
Definition Recognizer : Type := nat.
Definition AudioData : Type := nat.

(** What a call into the library does: it returns or it raises. *)
Inductive result (A : Type) : Type :=
| Ok (a : A)
| Err (e : exn).
Arguments Ok {A} a.
Arguments Err {A} e.

(** The three recognisers of the adapter. *)
Inductive Backend : Type := Google | Sphinx | WitAi.

(** The trace of library calls.  [EvOpen] is recorded when [__enter__] of
    the microphone has succeeded (the device is open from here), [EvClose]
    when its [__exit__] has run (the device is released). *)
Inductive Event : Type :=
| EvMicrophone (r : result Microphone)
| EvRecognizer (r : result Recognizer)
| EvOpen (m : Microphone)
| EvClose (m : Microphone)
| EvAdjust (r : result unit)
| EvListen (r : result AudioData)
| EvRecognize (b : Backend) (audio : option AudioData) (r : result string).

(** ** The session: [st.session_state] *)

(** [audio_data] is [None] while the attribute has never been assigned
    (speech_reg.py does not initialise it at the top of the script),
    [Some None] when it holds Python's [None], [Some (Some a)] when it holds
    a capture.  [selected_api], [selected_language] and [wit_key] are
    assigned by [main] on every script run before any button is handled. *)
Record Session : Type := mkSession {
  recording : bool;
  transcript : pyval;
  audio_source : option Microphone;
  recognizer : Recognizer;
  audio_data : option (option AudioData);
  selected_api : string;
  selected_language : string;
  wit_key : option string
}.

Definition with_recording (b : bool) (s : Session) : Session :=
  mkSession b (transcript s) (audio_source s) (recognizer s) (audio_data s)
            (selected_api s) (selected_language s) (wit_key s).

Definition with_transcript (t : pyval) (s : Session) : Session :=
  mkSession (recording s) t (audio_source s) (recognizer s) (audio_data s)
            (selected_api s) (selected_language s) (wit_key s).

Definition with_audio_source (m : option Microphone) (s : Session) : Session :=
  mkSession (recording s) (transcript s) m (recognizer s) (audio_data s)
            (selected_api s) (selected_language s) (wit_key s).

Definition with_recognizer (r : Recognizer) (s : Session) : Session :=
  mkSession (recording s) (transcript s) (audio_source s) r (audio_data s)
            (selected_api s) (selected_language s) (wit_key s).

Definition with_audio_data (a : option AudioData) (s : Session) : Session :=
  mkSession (recording s) (transcript s) (audio_source s) (recognizer s) (Some a)
            (selected_api s) (selected_language s) (wit_key s).

Definition with_settings (api language : string) (key : option string)
           (s : Session) : Session :=
  mkSession (recording s) (transcript s) (audio_source s) (recognizer s)
            (audio_data s) api language key.

(** Python's [not wit_key]: true for [None] and for the empty string. *)
Definition not_ (k : option string) : bool :=
  match k with
  | None => true
  | Some EmptyString => true
  | Some (String _ _) => false
  end.

(** ** The outside world *)

(** The answers of the [speech_recognition] library, as functions of the
    state of the world.  [sr.Microphone()] can raise (no input device);
    [__enter__] opens the device or raises having opened nothing;
    [__exit__] closes the device and returns [None], so it never swallows
    an exception of the body. *)
Record Env (World : Type) : Type := mkEnv {
  new_Microphone : World -> World * result Microphone;
  new_Recognizer : World -> World * result Recognizer;
  enter : Microphone -> World -> World * result unit;
  exit_ : Microphone -> World -> World;
  adjust_for_ambient_noise : Recognizer -> Microphone -> World -> World * result unit;
  listen : Recognizer -> Microphone -> World -> World * result AudioData;
  recognize_google : Recognizer -> option AudioData -> string -> World -> World * result string;
  recognize_sphinx : Recognizer -> option AudioData -> string -> World -> World * result string;
  recognize_wit : Recognizer -> option AudioData -> string -> World -> World * result string
}.
Arguments new_Microphone {World} _.
Arguments new_Recognizer {World} _.
Arguments enter {World} _.
Arguments exit_ {World} _.
Arguments adjust_for_ambient_noise {World} _.
Arguments listen {World} _.
Arguments recognize_google {World} _.
Arguments recognize_sphinx {World} _.
Arguments recognize_wit {World} _.

(** ** The monad of the scripts *)

(** How a Python call ends: it returns, an [Exception] propagates, or
    [st.experimental_rerun()] stops the script run (Streamlit's rerun
    request is not an [Exception], so no [except Exception] catches it). *)
Inductive completion (A : Type) : Type :=
| Returns (a : A)
| Raises (e : exn)
| Reruns.
Arguments Returns {A} a.
Arguments Raises {A} e.
Arguments Reruns {A}.

Record Run (World A : Type) : Type := mkRun {
  session_after : Session;
  world_after : World;
  trace : list Event;
  outcome : completion A
}.
Arguments mkRun {World A}.
Arguments session_after {World A}.
Arguments world_after {World A}.
Arguments trace {World A}.
Arguments outcome {World A}.

Definition M (World A : Type) : Type := Session -> World -> Run World A.

Section Monad.
Context {World : Type}.

Definition ret {A} (a : A) : M World A :=
  fun s w => mkRun s w [] (Returns a).

Definition raise {A} (e : exn) : M World A :=
  fun s w => mkRun s w [] (Raises e).

Definition rerun {A} : M World A :=
  fun s w => mkRun s w [] Reruns.

Definition bind {A B} (c : M World A) (k : A -> M World B) : M World B :=
  fun s w =>
    match c s w with
    | mkRun s1 w1 evs1 (Returns a) =>
        match k a s1 w1 with
        | mkRun s2 w2 evs2 o => mkRun s2 w2 (evs1 ++ evs2) o
        end
    | mkRun s1 w1 evs1 (Raises e) => mkRun s1 w1 evs1 (Raises e)
    | mkRun s1 w1 evs1 Reruns => mkRun s1 w1 evs1 Reruns
    end.

(** [try: c  except Exception as e: h e].  The session keeps every
    assignment made before the exception. *)
Definition try_except {A} (c : M World A) (h : exn -> M World A) : M World A :=
  fun s w =>
    match c s w with
    | mkRun s1 w1 evs1 (Raises e) =>
        match h e s1 w1 with
        | mkRun s2 w2 evs2 o => mkRun s2 w2 (evs1 ++ evs2) o
        end
    | r => r
    end.

(** Reading and assigning attributes of [st.session_state]. *)
Definition gets {A} (f : Session -> A) : M World A :=
  fun s w => mkRun s w [] (Returns (f s)).

Definition modify (f : Session -> Session) : M World unit :=
  fun s w => mkRun (f s) w [] (Returns tt).

(** A call into the library: the world moves on, the call is traced, and
    the call's exception, if any, propagates. *)
Definition call {A} (f : World -> World * result A) (ev : result A -> Event)
  : M World A :=
  fun s w =>
    match f w with
    | (w', Ok a) => mkRun s w' [ev (Ok a)] (Returns a)
    | (w', Err e) => mkRun s w' [ev (Err e)] (Raises e)
    end.

(** [str(e)] of the [AttributeError] Python (up to 3.10) raises for
    [with None as source]. *)
Definition enter_None : exn := mkExn OtherException "__enter__".

(** [with src as source: body source].  Entering a [Microphone] returns
    the microphone itself.  When [__enter__] raises nothing was opened and
    [__exit__] is not called; once entered, [__exit__] runs however the
    body ends, and the body's completion is the statement's. *)
Definition with_ {A} (E : Env World) (src : option Microphone)
           (body : Microphone -> M World A) : M World A :=
  match src with
  | None => raise enter_None
  | Some mic =>
      fun s w =>
        match enter E mic w with
        | (w1, Err e) => mkRun s w1 [] (Raises e)
        | (w1, Ok _) =>
            match body mic s w1 with
            | mkRun s2 w2 evs o =>
                mkRun s2 (exit_ E mic w2) (EvOpen mic :: evs ++ [EvClose mic]) o
            end
        end
  end.

(** Reading [st.session_state.audio_data]; Streamlit raises an
    [AttributeError] for an attribute that was never assigned. *)
Definition no_audio_data : exn :=
  mkExn OtherException "st.session_state has no attribute 'audio_data'".

Definition get_audio_data : M World (option AudioData) :=
  fun s w =>
    match audio_data s with
    | Some a => mkRun s w [] (Returns a)
    | None => mkRun s w [] (Raises no_audio_data)
    end.
End Monad.

Declare Scope script_scope.
Delimit Scope script_scope with script.
Notation "x <- c ;; k" := (bind c (fun x => k))
  (at level 61, c at next level, right associativity) : script_scope.
Notation "c ;; k" := (bind c (fun _ => k))
  (at level 61, right associativity) : script_scope.
Open Scope script_scope.

(** The user's intents, and what the sidebar of [main] assigns on every
    script run: the key field exists only when Wit.ai is selected. *)
Inductive Intent : Type := Start | Pause | Stop.

Definition sidebar (api language key_input : string) (s : Session) : Session :=
  with_settings api language
                (if api =? "Wit.ai" then Some key_input else None) s.

(** ** src/speech_mod.py *)
Module SpeechMod.
Section Script.
Context {World : Type} (E : Env World).

(** The session after the six [if ... not in st.session_state] lines
    ([last_update] only drives the blinking indicator and is left out);
    the settings are what the sidebar shows first. *)
Definition init (r : Recognizer) : Session :=
  mkSession false (PyStr "") None r (Some None) "Google" "en-US" None.

Definition transcribe_speech (api language : string) (wit_key : option string)
  : M World pyval :=
  try_except
    (if api =? "Google" then
       r <- gets recognizer ;;
       a <- get_audio_data ;;
       t <- call (recognize_google E r a language) (EvRecognize Google a) ;;
       ret (PyStr t)
     else if api =? "Sphinx" then
       r <- gets recognizer ;;
       a <- get_audio_data ;;
       t <- call (recognize_sphinx E r a language) (EvRecognize Sphinx a) ;;
       ret (PyStr t)
     else if api =? "Wit.ai" then
       if not_ wit_key then ret (PyStr "Error: Wit.ai API key is required")
       else
         r <- gets recognizer ;;
         a <- get_audio_data ;;
         t <- call (recognize_wit E r a (match wit_key with Some k => k | None => "" end))
                   (EvRecognize WitAi a) ;;
         ret (PyStr t)
     else ret PyNone)
    (fun e =>
       match exn_class_of e with
       | UnknownValueError => ret (PyStr "Error: Could not understand audio")
       | RequestError => ret (PyStr ("Error: API unavailable - " ++ exn_str e))
       | OtherException => ret (PyStr ("Error: " ++ exn_str e))
       end).

Definition start_recording : M World unit :=
  modify (with_recording true) ;;
  m <- call (new_Microphone E) EvMicrophone ;;
  modify (with_audio_source (Some m)) ;;
  r <- call (new_Recognizer E) EvRecognizer ;;
  modify (with_recognizer r).

(** [st.spinner] only draws; it is left out. *)
Definition stop_recording : M World unit :=
  rec <- gets recording ;;
  if rec then
    modify (with_recording false) ;;
    try_except
      (src <- gets audio_source ;;
       with_ E src (fun source =>
         r <- gets recognizer ;;
         a <- call (listen E r source) EvListen ;;
         modify (with_audio_data (Some a))) ;;
       api <- gets selected_api ;;
       language <- gets selected_language ;;
       key <- gets wit_key ;;
       t <- transcribe_speech api language key ;;
       modify (with_transcript t))
      (fun e => modify (with_transcript (PyStr ("Recording error: " ++ exn_str e))))
  else ret tt.

Definition pause_recording : M World unit :=
  rec <- gets recording ;;
  if rec then modify (with_recording false) else ret tt.

Definition handle (i : Intent) : M World unit :=
  match i with
  | Start => start_recording
  | Pause => pause_recording
  | Stop => stop_recording
  end.
End Script.
End SpeechMod.


(** ** src/speech_reg.py *)
Module SpeechReg.
Section Script.
Context {World : Type} (E : Env World).

(** The session after the four [if ... not in st.session_state] lines:
    [audio_data] is not among them. *)
Definition init (r : Recognizer) : Session :=
  mkSession false (PyStr "") None r None "Google" "en-US" None.

(** The missing key is a [ValueError] raised inside the [try], so the last
    handler turns it into text. *)
Definition transcribe_speech (api language : string) (wit_key : option string)
  : M World pyval :=
  try_except
    (if api =? "Google" then
       r <- gets recognizer ;;
       a <- get_audio_data ;;
       t <- call (recognize_google E r a language) (EvRecognize Google a) ;;
       ret (PyStr t)
     else if api =? "Sphinx" then
       r <- gets recognizer ;;
       a <- get_audio_data ;;
       t <- call (recognize_sphinx E r a language) (EvRecognize Sphinx a) ;;
       ret (PyStr t)
     else if api =? "Wit.ai" then
       if not_ wit_key then raise (mkExn OtherException "Wit.ai API key is required")
       else
         r <- gets recognizer ;;
         a <- get_audio_data ;;
         t <- call (recognize_wit E r a (match wit_key with Some k => k | None => "" end))
                   (EvRecognize WitAi a) ;;
         ret (PyStr t)
     else ret PyNone)
    (fun e =>
       match exn_class_of e with
       | UnknownValueError => ret (PyStr "Error: Speech not understood")
       | RequestError => ret (PyStr ("API Error: " ++ exn_str e))
       | OtherException => ret (PyStr ("Error: " ++ exn_str e))
       end).

Definition start_recording : M World unit :=
  modify (with_recording true) ;;
  m <- call (new_Microphone E) EvMicrophone ;;
  modify (with_audio_source (Some m)) ;;
  src <- gets audio_source ;;
  with_ E src (fun source =>
    r <- gets recognizer ;;
    call (adjust_for_ambient_noise E r source) EvAdjust ;;
    modify (with_audio_data None)).

(** No [try] here: what the capture raises leaves [stop_recording].
    [st.spinner] only draws; it is left out. *)
Definition stop_recording : M World unit :=
  rec <- gets recording ;;
  if rec then
    modify (with_recording false) ;;
    src <- gets audio_source ;;
    with_ E src (fun source =>
      r <- gets recognizer ;;
      a <- call (listen E r source) EvListen ;;
      modify (with_audio_data (Some a))) ;;
    api <- gets selected_api ;;
    language <- gets selected_language ;;
    key <- gets wit_key ;;
    t <- transcribe_speech api language key ;;
    modify (with_transcript t)
  else ret tt.

Definition pause_recording : M World unit :=
  rec <- gets recording ;;
  if rec then modify (with_recording false) ;; rerun else ret tt.

Definition handle (i : Intent) : M World unit :=
  match i with
  | Start => start_recording
  | Pause => pause_recording
  | Stop => stop_recording
  end.
End Script.
End SpeechReg.

(** ** Sequences of user actions *)

(** Between two calls of the state machine the user may change the
    settings of the sidebar. *)
Inductive Action : Type :=
| Do (i : Intent)
| Choose (api language key_input : string).

(** Each action is handled in a script run of its own.  An exception that
    leaves a handler ends that script run only: the session lives on in
    [st.session_state] and the next action starts from it. *)
Fixpoint run_actions {World} (handle : Intent -> M World unit)
         (acts : list Action) (s : Session) (w : World)
  : Session * World * list Event :=
  match acts with
  | [] => (s, w, [])
  | Do i :: rest =>
      match handle i s w with
      | mkRun s1 w1 evs1 _ =>
          let '(s', w', evs) := run_actions handle rest s1 w1 in
          (s', w', (evs1 ++ evs)%list)
      end
  | Choose api language key_input :: rest =>
      run_actions handle rest (sidebar api language key_input s) w
  end.

(** How often the device was opened, and how often it was released. *)
Definition is_open (e : Event) : bool :=
  match e with EvOpen _ => true | _ => false end.

Definition is_close (e : Event) : bool :=
  match e with EvClose _ => true | _ => false end.

Definition acquired (evs : list Event) : nat := length (filter is_open evs).
Definition released (evs : list Event) : nat := length (filter is_close evs).

(** How often a recogniser was called, and how often [sr.Microphone()]. *)
Definition is_recognize (e : Event) : bool :=
  match e with EvRecognize _ _ _ => true | _ => false end.

Definition is_microphone (e : Event) : bool :=
  match e with EvMicrophone _ => true | _ => false end.

Definition provider_calls (evs : list Event) : nat := length (filter is_recognize evs).
Definition microphones_made (evs : list Event) : nat := length (filter is_microphone evs).

(** ** What the user can see *)

(** The texts the two adapters use for a failure. *)
Definition mod_error (m : string) : bool := prefix "Error: " m.

Definition reg_error (m : string) : bool :=
  prefix "Error: " m || prefix "API Error: " m.

(** The text speech_mod.py stores when the capture itself fails. *)
Definition recording_error (m : string) : bool := prefix "Recording error: " m.

(** What a call of [transcribe_speech] can have done and returned, from a
    session [s]: nothing and [None]; nothing and an error text; one call of
    a recogniser on the session's audio that returned the text; or one such
    call that raised, and an error text. *)
Inductive transcribed (is_error : string -> bool) (s : Session)
  : list Event -> pyval -> Prop :=
| no_backend : transcribed is_error s [] PyNone
| not_called m : is_error m = true -> transcribed is_error s [] (PyStr m)
| recognised b a t :
    audio_data s = Some a ->
    transcribed is_error s [EvRecognize b a (Ok t)] (PyStr t)
| not_recognised b a e m :
    audio_data s = Some a -> is_error m = true ->
    transcribed is_error s [EvRecognize b a (Err e)] (PyStr m).

(** Audio in which no recogniser finds speech: called on it, each of the
    three raises [sr.UnknownValueError]. *)
Definition silent {World} (E : Env World) (r : Recognizer) (a : option AudioData)
           (w : World) : Prop :=
  (forall language, exists w' e,
      recognize_google E r a language w = (w', Err e)
      /\ exn_class_of e = UnknownValueError)
  /\ (forall language, exists w' e,
         recognize_sphinx E r a language w = (w', Err e)
         /\ exn_class_of e = UnknownValueError)
  /\ (forall key, exists w' e,
         recognize_wit E r a key w = (w', Err e)
         /\ exn_class_of e = UnknownValueError).

(** ** Concrete environments *)

(** A world that counts the objects the library has made, so that every
    [sr.Microphone()] and [sr.Recognizer()] is a new object, as in Python.
    [capture] is what [listen] does and [heard] what each recogniser
    does. *)
Definition lab (capture : result AudioData) (heard : result string) : Env nat :=
  mkEnv nat
        (fun w => (S w, Ok w))
        (fun w => (S w, Ok w))
        (fun _ w => (w, Ok tt))
        (fun _ w => w)
        (fun _ _ w => (w, Ok tt))
        (fun _ _ w => (w, capture))
        (fun _ _ _ w => (w, heard))
        (fun _ _ _ w => (w, heard))
        (fun _ _ _ w => (w, heard)).

(** Speech that every recogniser understands. *)
Definition studio : Env nat := lab (Ok 7) (Ok "hello world").

(** A capture in which no recogniser finds speech. *)
Definition silence : Env nat :=
  lab (Ok 7) (Err (mkExn UnknownValueError "")).

(** The recognition services cannot be reached. *)
Definition offline : Env nat :=
  lab (Ok 7) (Err (mkExn RequestError "recognition connection failed")).

(** The microphone fails while listening. *)
Definition unplugged : Env nat :=
  lab (Err (mkExn OtherException "Stream closed")) (Ok "hello world").

(** A session in the middle of a recording: what a first
    [start_recording] of speech_reg.py leaves, with the given settings. *)
Definition on_air (api : string) (key : option string) : Session :=
  mkSession true (PyStr "") (Some 1) 0 (Some None) api "en-US" key.

(** An idle session that holds the capture of an earlier cycle. *)
Definition at_rest (api : string) (key : option string) : Session :=
  mkSession false (PyStr "earlier words") (Some 1) 0 (Some (Some 7)) api "en-US" key.

(** ** The page: [main] *)

(** The options of the two select boxes of the sidebar. *)
Definition api_options : list string := ["Google"; "Sphinx"; "Wit.ai"].

Definition language_options : list string :=
  ["en-US"; "es-ES"; "fr-FR"; "de-DE"; "it-IT"; "ja-JP"; "ko-KR"; "zh-CN"].

(** The name the scripts compare [api] with for each recogniser. *)
Definition backend_name (b : Backend) : string :=
  match b with
  | Google => "Google"
  | Sphinx => "Sphinx"
  | WitAi => "Wit.ai"
  end.

(** What the widgets give the script in one script run: the two select
    boxes, the text of the key field, and what each [st.button] call
    returns. *)
Record Inputs : Type := mkInputs {
  api_box : string;
  language_box : string;
  key_box : string;
  start_pressed : bool;
  stop_pressed : bool;
  pause_pressed : bool
}.

(** Python's truth value of a transcript: [None] and the empty string are
    false. *)
Definition truthy (v : pyval) : bool :=
  match v with
  | PyStr (String _ _) => true
  | _ => false
  end.

(** [StringIO(v).getvalue()]: the text itself, and the empty string for
    [None]. *)
Definition getvalue (v : pyval) : string :=
  match v with
  | PyStr t => t
  | PyNone => ""
  end.

(** What a script run that reaches the end of [main] has given to the
    widgets: the [disabled] argument of the Start and Stop buttons; whether
    a Pause button was drawn and with which [disabled]; whether the
    recording warning was drawn; the bullet of the listening indicator
    ([true] for the filled one); the [value] of the output area; and the
    download button with its [data] and [disabled], when one was drawn. *)
Record Page : Type := mkPage {
  start_disabled : bool;
  stop_disabled : bool;
  pause_button : option bool;
  warning : bool;
  bullet : option bool;
  output : pyval;
  save : option (pyval * bool)
}.

(** *** speech_mod.py *)
Module SpeechModMain.
Section Script.
Context {World : Type} (E : Env World).

(** Time stamps of [time.time()], and the test [now - last_update > 0.5]. *)
Context {Time : Type} (half_second_passed : Time -> Time -> bool).

(** The two attributes of [st.session_state] that only the indicator
    uses; [indicator_state] is [None] until it is first assigned. *)
Record Blink : Type := mkBlink {
  last_update : Time;
  indicator_state : option bool
}.

(** Reading [st.session_state.indicator_state] before it was assigned. *)
Definition no_indicator_state : exn :=
  mkExn OtherException "st.session_state has no attribute 'indicator_state'".

(** The indicator block of a recording session at time [now]: the update
    when more than half a second has passed, then the reading of
    [indicator_state] that chooses the bullet. *)
Definition indicator (now : Time) (b : Blink) : Blink * result bool :=
  let b1 :=
    if half_second_passed now (last_update b) then
      mkBlink now (Some match indicator_state b with
                        | Some v => negb v
                        | None => true
                        end)
    else b in
  match indicator_state b1 with
  | Some v => (b1, Ok v)
  | None => (b1, Err no_indicator_state)
  end.

(** One script run.  The Pause button, the warning and the indicator
    exist only while the session is recording; the download button only
    when the transcript is true.  When the run is cut short by an exception
    the indicator's attributes are as before: nothing assigns them earlier
    in the script, and the indicator block raises only when it has assigned
    nothing. *)
Definition main (ui : Inputs) (now : Time) (b : Blink) : M World (Blink * Page) :=
  modify (sidebar (api_box ui) (language_box ui) (key_box ui)) ;;
  start_off <- gets recording ;;
  (if start_pressed ui then SpeechMod.start_recording E else ret tt) ;;
  stop_off <- gets (fun s => negb (recording s)) ;;
  (if stop_pressed ui then SpeechMod.stop_recording E else ret tt) ;;
  rec <- gets recording ;;
  pause <- (if rec then
              (if pause_pressed ui then SpeechMod.pause_recording else ret tt) ;;
              ret (Some false)
            else ret None) ;;
  rec <- gets recording ;;
  shown <- (if rec then
              match indicator now b with
              | (b1, Ok v) => ret (b1, Some v)
              | (_, Err e) => raise e
              end
            else ret (b, None)) ;;
  t <- gets transcript ;;
  ret (fst shown,
       mkPage start_off stop_off pause rec (snd shown) t
              (if truthy t then Some (t, false) else None)).

(** Script runs one after the other.  A run that is cut short leaves the
    session it has reached. *)
Fixpoint reruns (runs : list (Inputs * Time)) (b : Blink) (s : Session) (w : World)
  : Blink * Session * World :=
  match runs with
  | [] => (b, s, w)
  | (ui, now) :: rest =>
      match main ui now b s w with
      | mkRun s1 w1 _ (Returns (b1, _)) => reruns rest b1 s1 w1
      | mkRun s1 w1 _ _ => reruns rest b s1 w1
      end
  end.
End Script.
End SpeechModMain.

(** *** speech_reg.py *)
Module SpeechRegMain.
Section Script.
Context {World : Type} (E : Env World).

(** One script run: three buttons side by side, the download button
    always drawn. *)
Definition main (ui : Inputs) : M World Page :=
  modify (sidebar (api_box ui) (language_box ui) (key_box ui)) ;;
  start_off <- gets recording ;;
  (if start_pressed ui then SpeechReg.start_recording E else ret tt) ;;
  pause_off <- gets (fun s => negb (recording s)) ;;
  (if pause_pressed ui then SpeechReg.pause_recording else ret tt) ;;
  stop_off <- gets (fun s => negb (recording s)) ;;
  (if stop_pressed ui then SpeechReg.stop_recording E else ret tt) ;;
  rec <- gets recording ;;
  t <- gets transcript ;;
  ret (mkPage start_off stop_off (Some pause_off) rec None t
              (Some (PyStr (getvalue t), negb (truthy t)))).

Fixpoint reruns (runs : list Inputs) (s : Session) (w : World) : Session * World :=
  match runs with
  | [] => (s, w)
  | ui :: rest =>
      match main ui s w with
      | mkRun s1 w1 _ _ => reruns rest s1 w1
      end
  end.
End Script.
End SpeechRegMain.

(** Inputs of a run in which nothing but the given button returns true. *)
Definition press (api key : string) (start stop pause : bool) : Inputs :=
  mkInputs api "en-US" key start stop pause.

(** How often [listen] was called. *)
Definition is_listen (e : Event) : bool :=
  match e with EvListen _ => true | _ => false end.

Definition captures (evs : list Event) : nat := length (filter is_listen evs).

(** A sequence of actions without a Stop. *)
Definition is_stop (a : Action) : bool :=
  match a with Do Stop => true | _ => false end.

(** A clock in whole tenths of a second, for the examples. *)
Definition tenths (now last : nat) : bool := Nat.ltb 5 (now - last).

(** No input device: [sr.Microphone()] raises. *)
Definition no_device : Env nat :=
  mkEnv nat
        (fun w => (w, Err (mkExn OtherException "No Default Input Device Available")))
        (new_Recognizer studio) (enter studio) (exit_ studio)
        (adjust_for_ambient_noise studio) (listen studio)
        (recognize_google studio) (recognize_sphinx studio) (recognize_wit studio).

(** The indicator's attributes of a new session of speech_mod.py, created
    at time [t0]. *)
Definition new_blink (t0 : nat) : SpeechModMain.Blink :=
  SpeechModMain.mkBlink t0 None.

(** How often the recogniser was calibrated against the ambient noise. *)
Definition is_adjust (e : Event) : bool :=
  match e with EvAdjust _ => true | _ => false end.

Definition calibrations (evs : list Event) : nat := length (filter is_adjust evs).

(** ** The device *)

(** A reading of the world as the number of streams of the input device
    that are open: [__enter__] opens one when it returns and none when it
    raises, [__exit__] closes one, and no other call of the library opens
    or closes any. *)
Record DeviceLaws {World} (E : Env World) (streams : World -> nat) : Prop :=
  mkDeviceLaws {
  enter_opens : forall m w w' u, enter E m w = (w', Ok u) -> streams w' = S (streams w);
  enter_fails : forall m w w' e, enter E m w = (w', Err e) -> streams w' = streams w;
  exit_closes : forall m w, streams (exit_ E m w) = Nat.pred (streams w);
  microphone_keeps : forall w w' r, new_Microphone E w = (w', r) -> streams w' = streams w;
  recognizer_keeps : forall w w' r, new_Recognizer E w = (w', r) -> streams w' = streams w;
  adjust_keeps : forall r m w w' x,
      adjust_for_ambient_noise E r m w = (w', x) -> streams w' = streams w;
  listen_keeps : forall r m w w' x, listen E r m w = (w', x) -> streams w' = streams w;
  google_keeps : forall r a l w w' x,
      recognize_google E r a l w = (w', x) -> streams w' = streams w;
  sphinx_keeps : forall r a l w w' x,
      recognize_sphinx E r a l w = (w', x) -> streams w' = streams w;
  wit_keeps : forall r a k w w' x,
      recognize_wit E r a k w = (w', x) -> streams w' = streams w
}.

(** A world that counts the objects made and the streams that are open;
    [capture] is what [listen] does and [heard] what each recogniser
    does. *)
Definition device_lab (capture : result AudioData) (heard : result string)
  : Env (nat * nat) :=
  mkEnv (nat * nat)
        (fun w => ((S (fst w), snd w), Ok (fst w)))
        (fun w => ((S (fst w), snd w), Ok (fst w)))
        (fun _ w => ((fst w, S (snd w)), Ok tt))
        (fun _ w => (fst w, Nat.pred (snd w)))
        (fun _ _ w => (w, Ok tt))
        (fun _ _ w => (w, capture))
        (fun _ _ _ w => (w, heard))
        (fun _ _ _ w => (w, heard))
        (fun _ _ _ w => (w, heard)).

(** ** Proof steps *)

(** Unfolds the monad under the state-machine functions, leaving
    [transcribe_speech] folded. *)
Ltac unfold_machine :=
  cbv [SpeechMod.start_recording SpeechMod.stop_recording
       SpeechMod.pause_recording SpeechMod.handle
       SpeechReg.start_recording SpeechReg.stop_recording
       SpeechReg.pause_recording SpeechReg.handle
       bind ret raise rerun try_except gets modify call with_ get_audio_data
       enter_None no_audio_data exn_class_of exn_str
       session_after world_after trace outcome];
  cbn [app].

Ltac unfold_adapter :=
  cbv [SpeechMod.transcribe_speech SpeechReg.transcribe_speech
       bind ret raise rerun try_except gets modify call get_audio_data
       no_audio_data exn_class_of exn_str
       session_after world_after trace outcome];
  cbn [app].

(** Splits on the innermost thing a [match] of the goal is stuck on. *)
Ltac split_match :=
  match goal with
  | |- context [match ?x with _ => _ end] =>
      lazymatch x with
      | context [match _ with _ => _ end] => fail
      | _ => destruct x eqn:?
      end
  end;
  cbn [session_after world_after trace outcome recording audio_source
       with_recording with_audio_source with_audio_data with_transcript
       with_recognizer app].

(** Replaces a call of [transcribe_speech] by what the given lemmas say it
    did, one case each. *)
Ltac adapter_step lem_mod lem_reg :=
  match goal with
  | |- context [@SpeechMod.transcribe_speech ?W ?E ?a ?l ?k ?s ?w] =>
      let H := fresh "Hcall" in
      let T := fresh "Hdone" in
      destruct (lem_mod W E a l k s w) as (? & ? & ? & H & T); rewrite H; clear H;
      destruct T
  | |- context [@SpeechReg.transcribe_speech ?W ?E ?a ?l ?k ?s ?w] =>
      let H := fresh "Hcall" in
      let T := fresh "Hdone" in
      destruct (lem_reg W E a l k s w) as (? & ? & ? & H & T); rewrite H; clear H;
      destruct T
  end;
  cbn [session_after world_after trace outcome recording audio_source
       with_recording with_audio_source with_audio_data with_transcript
       with_recognizer app].

Ltac by_cases lem_mod lem_reg :=
  unfold_machine; repeat first [adapter_step lem_mod lem_reg | split_match].

Create HintDb speech.

(** Computes the attributes of a session that is written out. *)
Ltac attributes :=
  cbn [session_after world_after trace outcome app fst snd
       recording transcript audio_source recognizer audio_data
       selected_api selected_language wit_key
       with_recording with_transcript with_audio_source with_recognizer
       with_audio_data with_settings sidebar press
       api_box language_box key_box start_pressed stop_pressed pause_pressed
       SpeechModMain.last_update SpeechModMain.indicator_state
       String.eqb Ascii.eqb Bool.eqb].

(** Unfolds [main] and the state machine down to the calls of the
    library; [unfold_pages] leaves [transcribe_speech] folded. *)
Ltac unfold_pages :=
  cbv [SpeechModMain.main SpeechRegMain.main SpeechModMain.indicator
       SpeechMod.start_recording SpeechMod.stop_recording
       SpeechMod.pause_recording SpeechMod.handle
       SpeechReg.start_recording SpeechReg.stop_recording
       SpeechReg.pause_recording SpeechReg.handle
       bind ret raise rerun try_except gets modify call with_ get_audio_data
       enter_None no_audio_data exn_class_of exn_str];
  attributes.

Ltac unfold_all :=
  cbv [SpeechModMain.main SpeechRegMain.main SpeechModMain.indicator
       SpeechMod.transcribe_speech SpeechReg.transcribe_speech
       SpeechMod.start_recording SpeechMod.stop_recording
       SpeechMod.pause_recording SpeechMod.handle
       SpeechReg.start_recording SpeechReg.stop_recording
       SpeechReg.pause_recording SpeechReg.handle
       bind ret raise rerun try_except gets modify call with_ get_audio_data
       enter_None no_audio_data exn_class_of exn_str];
  attributes.

(** Splits like [split_match], computing the attributes as well. *)
Ltac split_more :=
  match goal with
  | |- context [match ?x with _ => _ end] =>
      lazymatch x with
      | context [match _ with _ => _ end] => fail
      | _ => destruct x eqn:?
      end
  end;
  attributes.

(** Replaces a call of [transcribe_speech] by what the given lemmas say
    about the recogniser it chose. *)
Ltac route_step lem_mod lem_reg :=
  match goal with
  | |- context [@SpeechMod.transcribe_speech ?W ?E ?a ?l ?k ?s ?w] =>
      let H := fresh "Hcall" in
      destruct (lem_mod W E a l k s w) as (? & ? & ? & H & ? & ?); rewrite H; clear H
  | |- context [@SpeechReg.transcribe_speech ?W ?E ?a ?l ?k ?s ?w] =>
      let H := fresh "Hcall" in
      destruct (lem_reg W E a l k s w) as (? & ? & ? & H & ? & ?); rewrite H; clear H
  end;
  attributes.

Ltac by_pages lem_mod lem_reg :=
  unfold_pages; repeat first [route_step lem_mod lem_reg | split_more].

(** Closes a goal about the text of a failure; [pre] is the lemma that a
    text begins with what it was appended to. *)
Ltac error_text pre :=
  repeat match goal with
         | H : _ \/ _ |- _ => destruct H
         | H : False |- _ => contradiction
         | H : EvRecognize _ _ _ = EvRecognize _ _ _ |- _ => injection H as <- <- <-
         | H : _ = _ |- _ => discriminate H
         end;
  cbn [exn_class_of exn_str] in *; subst;
  try solve [ eexists; split;
              [ reflexivity
              | first [ reflexivity
                      | apply (pre "Error: ")
                      | apply (pre "API Error: ")
                      | apply (pre "Recording error: ") ] ] ].

(** ** Properties of the adapter *)

Lemma eqb_other (api name : string) : api <> name -> (api =? name) = false.
Proof. intro H. now apply String.eqb_neq. Qed.

Lemma prefix_append (p d : string) : prefix p (p ++ d) = true.
Proof.
  induction p as [| c p IH]; simpl.
  - now destruct d.
  - destruct (Ascii.ascii_dec c c) as [_ | Hne]; [exact IH | now elim Hne].
Qed.

Lemma mod_error_text (d : string) : mod_error ("Error: " ++ d) = true.
Proof. apply prefix_append. Qed.

Lemma reg_error_text (d : string) : reg_error ("Error: " ++ d) = true.
Proof. unfold reg_error. now rewrite prefix_append. Qed.

Lemma reg_api_error_text (d : string) : reg_error ("API Error: " ++ d) = true.
Proof. unfold reg_error. rewrite (prefix_append "API Error: "). apply orb_true_r. Qed.

#[local] Hint Resolve mod_error_text reg_error_text reg_api_error_text : speech.
#[local] Hint Constructors transcribed : speech.

Lemma mod_transcribe_cases {World} (E : Env World) (api language : string)
      (key : option string) (s : Session) (w : World) :
  exists w' evs v,
    SpeechMod.transcribe_speech E api language key s w = mkRun s w' evs (Returns v)
    /\ transcribed mod_error s evs v.
Proof.
  unfold_adapter. repeat split_match;
    eexists _, _, _; (split; [reflexivity |]); auto with speech.
Qed.

Lemma reg_transcribe_cases {World} (E : Env World) (api language : string)
      (key : option string) (s : Session) (w : World) :
  exists w' evs v,
    SpeechReg.transcribe_speech E api language key s w = mkRun s w' evs (Returns v)
    /\ transcribed reg_error s evs v.
Proof.
  unfold_adapter. repeat split_match;
    eexists _, _, _; (split; [reflexivity |]); auto with speech.
Qed.

(** C3. With Wit.ai selected and a key that is [None] or empty, both
    scripts return the text "Error: Wit.ai API key is required", leave the
    session and the world as they were, and call nothing in the library:
    the trace is empty, so no recogniser was invoked. *)
Theorem wit_without_key_never_calls
        {World} (E : Env World) (language : string) (key : option string)
        (s : Session) (w : World) :
  not_ key = true ->
  SpeechMod.transcribe_speech E "Wit.ai" language key s w
    = mkRun s w [] (Returns (PyStr "Error: Wit.ai API key is required"))
  /\ SpeechReg.transcribe_speech E "Wit.ai" language key s w
     = mkRun s w [] (Returns (PyStr "Error: Wit.ai API key is required"))
  /\ provider_calls (trace (SpeechMod.transcribe_speech E "Wit.ai" language key s w)) = 0
  /\ provider_calls (trace (SpeechReg.transcribe_speech E "Wit.ai" language key s w)) = 0.
Proof.
  intro Hkey.
  assert (Hmod : SpeechMod.transcribe_speech E "Wit.ai" language key s w
                 = mkRun s w [] (Returns (PyStr "Error: Wit.ai API key is required"))).
  { unfold SpeechMod.transcribe_speech. cbn [String.eqb Ascii.eqb Bool.eqb].
    rewrite Hkey. reflexivity. }
  assert (Hreg : SpeechReg.transcribe_speech E "Wit.ai" language key s w
                 = mkRun s w [] (Returns (PyStr "Error: Wit.ai API key is required"))).
  { unfold SpeechReg.transcribe_speech. cbn [String.eqb Ascii.eqb Bool.eqb].
    rewrite Hkey. reflexivity. }
  rewrite Hmod, Hreg. repeat split; reflexivity.
Qed.

Lemma wit_without_key_never_calls_witness :
  not_ (Some "") = true
  /\ SpeechReg.transcribe_speech silence "Wit.ai" "en-US" (Some "") (at_rest "Wit.ai" (Some "")) 0
     = mkRun (at_rest "Wit.ai" (Some "")) 0 []
             (Returns (PyStr "Error: Wit.ai API key is required")).
Proof.
  refine (conj eq_refl _).
  exact (proj1 (proj2 (wit_without_key_never_calls
                         silence "en-US" (Some "") (at_rest "Wit.ai" (Some "")) 0 eq_refl))).
Defined.

(** C10. For a backend name that is none of "Google", "Sphinx" and
    "Wit.ai", whatever the language and the key, both scripts return
    [None]: no branch is taken, nothing in the library is called and
    nothing is raised. *)
Theorem unknown_backend_returns_None
        {World} (E : Env World) (api language : string) (key : option string)
        (s : Session) (w : World) :
  api <> "Google" -> api <> "Sphinx" -> api <> "Wit.ai" ->
  SpeechMod.transcribe_speech E api language key s w = mkRun s w [] (Returns PyNone)
  /\ SpeechReg.transcribe_speech E api language key s w = mkRun s w [] (Returns PyNone).
Proof.
  intros Hg Hs Hw.
  unfold SpeechMod.transcribe_speech, SpeechReg.transcribe_speech.
  rewrite (eqb_other _ _ Hg), (eqb_other _ _ Hs), (eqb_other _ _ Hw).
  split; reflexivity.
Qed.

Lemma unknown_backend_returns_None_witness :
  "Whisper" <> "Google" /\ "Whisper" <> "Sphinx" /\ "Whisper" <> "Wit.ai"
  /\ SpeechMod.transcribe_speech studio "Whisper" "en-US" None (at_rest "Whisper" None) 0
     = mkRun (at_rest "Whisper" None) 0 [] (Returns PyNone).
Proof.
  assert (H1 : "Whisper" <> "Google") by discriminate.
  assert (H2 : "Whisper" <> "Sphinx") by discriminate.
  assert (H3 : "Whisper" <> "Wit.ai") by discriminate.
  refine (conj H1 (conj H2 (conj H3 _))).
  exact (proj1 (unknown_backend_returns_None studio "Whisper" "en-US" None
                                              (at_rest "Whisper" None) 0 H1 H2 H3)).
Defined.

Lemma lab_silent (capture : result AudioData) (r : Recognizer)
      (a : option AudioData) (w : nat) :
  silent (lab capture (Err (mkExn UnknownValueError ""))) r a w.
Proof. repeat split; intros; eexists _, _; split; reflexivity. Qed.

(** C8 fails as stated: with Wit.ai selected and no key, on audio in
    which every recogniser raises [sr.UnknownValueError], both scripts
    return the text for the missing key, which is not the text for speech
    that was not understood. *)
Lemma silent_audio_without_key_is_a_key_error :
  audio_data (at_rest "Wit.ai" None) = Some (Some 7)
  /\ silent silence (recognizer (at_rest "Wit.ai" None)) (Some 7) 0
  /\ outcome (SpeechMod.transcribe_speech silence "Wit.ai" "en-US" None
                                          (at_rest "Wit.ai" None) 0)
     = Returns (PyStr "Error: Wit.ai API key is required")
  /\ outcome (SpeechMod.transcribe_speech silence "Wit.ai" "en-US" None
                                          (at_rest "Wit.ai" None) 0)
     <> Returns (PyStr "Error: Could not understand audio")
  /\ outcome (SpeechReg.transcribe_speech silence "Wit.ai" "en-US" None
                                          (at_rest "Wit.ai" None) 0)
     = Returns (PyStr "Error: Wit.ai API key is required")
  /\ outcome (SpeechReg.transcribe_speech silence "Wit.ai" "en-US" None
                                          (at_rest "Wit.ai" None) 0)
     <> Returns (PyStr "Error: Speech not understood").
Proof.
  split; [reflexivity |]. split; [apply lab_silent |].
  repeat split; try reflexivity; vm_compute; discriminate.
Qed.

(** ** Properties of the state machine *)

Lemma acquired_app (xs ys : list Event) :
  acquired (xs ++ ys) = acquired xs + acquired ys.
Proof. unfold acquired. now rewrite filter_app, length_app. Qed.

Lemma released_app (xs ys : list Event) :
  released (xs ++ ys) = released xs + released ys.
Proof. unfold released. now rewrite filter_app, length_app. Qed.

Lemma mod_handle_balanced {World} (E : Env World) (i : Intent) (s : Session) (w : World) :
  acquired (trace (SpeechMod.handle E i s w)) = released (trace (SpeechMod.handle E i s w)).
Proof.
  destruct i; by_cases (@mod_transcribe_cases) (@reg_transcribe_cases); reflexivity.
Qed.

Lemma reg_handle_balanced {World} (E : Env World) (i : Intent) (s : Session) (w : World) :
  acquired (trace (SpeechReg.handle E i s w)) = released (trace (SpeechReg.handle E i s w)).
Proof.
  destruct i; by_cases (@mod_transcribe_cases) (@reg_transcribe_cases); reflexivity.
Qed.

Lemma run_actions_balanced {World} (handle : Intent -> M World unit) :
  (forall i s w, acquired (trace (handle i s w)) = released (trace (handle i s w))) ->
  forall acts s w,
    acquired (snd (run_actions handle acts s w)) = released (snd (run_actions handle acts s w)).
Proof.
  intros Hstep acts.
  induction acts as [| [i | api language key_input] rest IH]; intros s w.
  - reflexivity.
  - cbn [run_actions].
    specialize (Hstep i s w).
    destruct (handle i s w) as [s1 w1 evs1 o1]. cbn [trace] in Hstep.
    specialize (IH s1 w1).
    destruct (run_actions handle rest s1 w1) as [[s' w'] evs].
    cbn [snd] in *.
    now rewrite acquired_app, released_app, Hstep, IH.
  - cbn [run_actions]. apply IH.
Qed.

(** C4. [stop_recording] on a session that is not recording does
    nothing in either script: the session (transcript and recording flag
    included) and the world are unchanged, and the trace is empty, so
    nothing was captured and no recogniser was called. *)
Theorem stop_when_idle_is_noop
        {World} (E : Env World) (s : Session) (w : World) :
  recording s = false ->
  SpeechMod.stop_recording E s w = mkRun s w [] (Returns tt)
  /\ SpeechReg.stop_recording E s w = mkRun s w [] (Returns tt).
Proof.
  intro Hidle. unfold_machine. rewrite Hidle. split; reflexivity.
Qed.

Lemma stop_when_idle_is_noop_witness :
  recording (at_rest "Google" None) = false
  /\ SpeechMod.stop_recording studio (at_rest "Google" None) 0
     = mkRun (at_rest "Google" None) 0 [] (Returns tt).
Proof.
  refine (conj eq_refl _).
  exact (proj1 (stop_when_idle_is_noop studio (at_rest "Google" None) 0 eq_refl)).
Defined.

(** C9. [pause_recording] while recording clears the recording flag and
    touches no other attribute of the session, calls nothing in the
    library, and (in speech_reg.py) asks Streamlit for a rerun.  The flag
    is the only state there is, so the session after a pause is an idle
    one: a [stop_recording] that follows does nothing and captures no
    audio.  [pause_recording] on a session that is not recording changes
    nothing. *)
Theorem pause_only_clears_the_flag
        {World} (E : Env World) (s : Session) (w : World) :
  (recording s = true ->
     SpeechMod.pause_recording s w = mkRun (with_recording false s) w [] (Returns tt)
     /\ SpeechReg.pause_recording s w = mkRun (with_recording false s) w [] Reruns
     /\ SpeechMod.stop_recording E (with_recording false s) w
        = mkRun (with_recording false s) w [] (Returns tt)
     /\ SpeechReg.stop_recording E (with_recording false s) w
        = mkRun (with_recording false s) w [] (Returns tt))
  /\ (recording s = false ->
        SpeechMod.pause_recording s w = mkRun s w [] (Returns tt)
        /\ SpeechReg.pause_recording s w = mkRun s w [] (Returns tt))
  /\ recording (with_recording false s) = false
  /\ transcript (with_recording false s) = transcript s
  /\ audio_data (with_recording false s) = audio_data s
  /\ audio_source (with_recording false s) = audio_source s
  /\ recognizer (with_recording false s) = recognizer s
  /\ selected_api (with_recording false s) = selected_api s
  /\ selected_language (with_recording false s) = selected_language s
  /\ wit_key (with_recording false s) = wit_key s.
Proof.
  split; [| split].
  - intro Hrec. unfold_machine. cbn [recording with_recording].
    rewrite Hrec. repeat split.
  - intro Hidle. unfold_machine. rewrite Hidle. split; reflexivity.
  - repeat split.
Qed.

Lemma pause_only_clears_the_flag_witness :
  recording (on_air "Google" None) = true
  /\ SpeechReg.pause_recording (on_air "Google" None) 0
     = mkRun (with_recording false (on_air "Google" None)) 0 [] Reruns
  /\ recording (at_rest "Google" None) = false
  /\ SpeechReg.pause_recording (at_rest "Google" None) 0
     = mkRun (at_rest "Google" None) 0 [] (Returns tt).
Proof.
  pose proof (pause_only_clears_the_flag silence (on_air "Google" None) 0) as [Hon _].
  pose proof (pause_only_clears_the_flag silence (at_rest "Google" None) 0) as [_ [Hoff _]].
  refine (conj eq_refl (conj _ (conj eq_refl _))).
  - exact (proj1 (proj2 (Hon eq_refl))).
  - exact (proj2 (Hoff eq_refl)).
Defined.

(** What [stop_recording] of speech_mod.py does with failures: it always
    returns and leaves the session not recording; when the capture did not
    complete the transcript is a "Recording error: " text, and when a
    recogniser raised it is one of the adapter's error texts. *)
Lemma mod_stop_recording_contains_failures
      {World} (E : Env World) (s : Session) (w : World) :
  outcome (SpeechMod.stop_recording E s w) = Returns tt
  /\ recording (session_after (SpeechMod.stop_recording E s w)) = false
  /\ (recording s = true ->
      (forall a, ~ In (EvListen (Ok a)) (trace (SpeechMod.stop_recording E s w))) ->
      exists d, transcript (session_after (SpeechMod.stop_recording E s w))
                = PyStr ("Recording error: " ++ d))
  /\ (forall b a e, In (EvRecognize b a (Err e)) (trace (SpeechMod.stop_recording E s w)) ->
      exists m, transcript (session_after (SpeechMod.stop_recording E s w)) = PyStr m
                /\ mod_error m = true).
Proof.
  by_cases (@mod_transcribe_cases) (@reg_transcribe_cases);
    (split; [reflexivity |]); (split; [first [reflexivity | assumption] |]);
    (split; [intros Hrec Hnone; try discriminate
            | intros b' a' e' Hin; cbn [In] in Hin ]).
  all: try solve [eexists; reflexivity].
  all: try solve [exfalso; eapply Hnone; cbn [In]; eauto].
  all: try solve [exfalso; intuition discriminate].
  all: try solve [eexists; split; [reflexivity | assumption]].
Qed.

(** C1 at the failing input: a recording session of speech_reg.py whose
    microphone fails while listening.  The exception leaves
    [stop_recording] and the transcript is what it was; only the recording
    flag has been cleared.  On the same input speech_mod.py returns and
    stores the text "Recording error: Stream closed". *)
Theorem reg_capture_failure_escapes :
  recording (on_air "Google" None) = true
  /\ outcome (SpeechReg.stop_recording unplugged (on_air "Google" None) 2)
     = Raises (mkExn OtherException "Stream closed")
  /\ transcript (session_after (SpeechReg.stop_recording unplugged (on_air "Google" None) 2))
     = transcript (on_air "Google" None)
  /\ recording (session_after (SpeechReg.stop_recording unplugged (on_air "Google" None) 2))
     = false
  /\ outcome (SpeechMod.stop_recording unplugged (on_air "Google" None) 2) = Returns tt
  /\ transcript (session_after (SpeechMod.stop_recording unplugged (on_air "Google" None) 2))
     = PyStr "Recording error: Stream closed".
Proof. repeat split. Qed.

(** The session [on_air] is the one a first start leaves. *)
Lemma on_air_reached :
  SpeechReg.start_recording unplugged (SpeechReg.init 0) 1
  = mkRun (on_air "Google" None) 2
          [EvMicrophone (Ok 1); EvOpen 1; EvAdjust (Ok tt); EvClose 1] (Returns tt).
Proof. reflexivity. Qed.

(** C2 fails as stated: called on the session a first start has left,
    [start_recording] is no no-op.  In speech_reg.py it constructs a
    second microphone, opens the device once more to calibrate, and leaves
    a session that holds the new microphone; in speech_mod.py it
    constructs a second microphone and a second recogniser and stores
    both. *)
Lemma second_start_is_not_a_noop :
  SpeechReg.start_recording studio (SpeechReg.init 0) 1
  = mkRun (on_air "Google" None) 2
          [EvMicrophone (Ok 1); EvOpen 1; EvAdjust (Ok tt); EvClose 1] (Returns tt)
  /\ trace (SpeechReg.start_recording studio (on_air "Google" None) 2)
     = [EvMicrophone (Ok 2); EvOpen 2; EvAdjust (Ok tt); EvClose 2]
  /\ acquired (trace (SpeechReg.start_recording studio (on_air "Google" None) 2)) = 1
  /\ microphones_made
       (trace (SpeechReg.start_recording studio (SpeechReg.init 0) 1)
        ++ trace (SpeechReg.start_recording studio (on_air "Google" None) 2)) = 2
  /\ session_after (SpeechReg.start_recording studio (on_air "Google" None) 2)
     <> on_air "Google" None
  /\ session_after (SpeechMod.start_recording studio (SpeechMod.init 0) 1)
     = mkSession true (PyStr "") (Some 1) 2 (Some None) "Google" "en-US" None
  /\ SpeechMod.start_recording
       studio (mkSession true (PyStr "") (Some 1) 2 (Some None) "Google" "en-US" None) 3
     = mkRun (mkSession true (PyStr "") (Some 3) 4 (Some None) "Google" "en-US" None) 5
             [EvMicrophone (Ok 3); EvRecognizer (Ok 4)] (Returns tt).
Proof.
  repeat apply conj; try reflexivity.
  vm_compute. discriminate.
Qed.

(** C5, as the code has it.  In speech_reg.py a [start_recording] that
    returns has set [audio_data] to [None]; in speech_mod.py
    [start_recording] does not touch [audio_data].  In both scripts it is
    the capture of [stop_recording] that replaces it: when [listen] has
    returned an audio, [audio_data] holds that audio afterwards, and the
    audio a recogniser is called on by [stop_recording] is the one
    [listen] returned in the same call. *)
Theorem audio_data_is_replaced_by_the_capture
        {World} (E : Env World) (s : Session) (w : World) :
  (outcome (SpeechReg.start_recording E s w) = Returns tt ->
   audio_data (session_after (SpeechReg.start_recording E s w)) = Some None)
  /\ audio_data (session_after (SpeechMod.start_recording E s w)) = audio_data s
  /\ (forall a, In (EvListen (Ok a)) (trace (SpeechMod.stop_recording E s w)) ->
      audio_data (session_after (SpeechMod.stop_recording E s w)) = Some (Some a))
  /\ (forall a, In (EvListen (Ok a)) (trace (SpeechReg.stop_recording E s w)) ->
      audio_data (session_after (SpeechReg.stop_recording E s w)) = Some (Some a))
  /\ (forall b arg r, In (EvRecognize b arg r) (trace (SpeechMod.stop_recording E s w)) ->
      exists a, arg = Some a /\ In (EvListen (Ok a)) (trace (SpeechMod.stop_recording E s w)))
  /\ (forall b arg r, In (EvRecognize b arg r) (trace (SpeechReg.stop_recording E s w)) ->
      exists a, arg = Some a /\ In (EvListen (Ok a)) (trace (SpeechReg.stop_recording E s w))).
Proof.
  repeat apply conj.
  - by_cases (@mod_transcribe_cases) (@reg_transcribe_cases);
      intro Hret; first [discriminate Hret | reflexivity].
  - by_cases (@mod_transcribe_cases) (@reg_transcribe_cases); reflexivity.
  - by_cases (@mod_transcribe_cases) (@reg_transcribe_cases);
      intros a' Hin; cbn [In] in Hin; cbn [audio_data with_transcript with_audio_data];
      intuition (try discriminate; try congruence).
  - by_cases (@mod_transcribe_cases) (@reg_transcribe_cases);
      intros a' Hin; cbn [In] in Hin; cbn [audio_data with_transcript with_audio_data];
      intuition (try discriminate; try congruence).
  - by_cases (@mod_transcribe_cases) (@reg_transcribe_cases);
      intros b' arg' r' Hin; cbn [In] in Hin;
      cbn [audio_data with_transcript with_audio_data with_recording] in *;
      intuition (try discriminate);
      match goal with
      | H : EvRecognize _ _ _ = EvRecognize _ _ _ |- _ => injection H as <- <- <-
      end;
      match goal with
      | H : Some (Some ?a) = Some _ |- _ => injection H as <-; exists a
      end;
      cbn [In]; intuition.
  - by_cases (@mod_transcribe_cases) (@reg_transcribe_cases);
      intros b' arg' r' Hin; cbn [In] in Hin;
      cbn [audio_data with_transcript with_audio_data with_recording] in *;
      intuition (try discriminate);
      match goal with
      | H : EvRecognize _ _ _ = EvRecognize _ _ _ |- _ => injection H as <- <- <-
      end;
      match goal with
      | H : Some (Some ?a) = Some _ |- _ => injection H as <-; exists a
      end;
      cbn [In]; intuition.
Qed.

Lemma audio_data_is_replaced_by_the_capture_witness :
  outcome (SpeechReg.start_recording studio (at_rest "Google" None) 2) = Returns tt
  /\ audio_data (session_after (SpeechReg.start_recording studio (at_rest "Google" None) 2))
     = Some None
  /\ In (EvListen (Ok 7)) (trace (SpeechReg.stop_recording studio (on_air "Google" None) 2))
  /\ audio_data (session_after (SpeechReg.stop_recording studio (on_air "Google" None) 2))
     = Some (Some 7).
Proof.
  pose proof (audio_data_is_replaced_by_the_capture studio (at_rest "Google" None) 2)
    as (Hstart & _).
  pose proof (audio_data_is_replaced_by_the_capture studio (on_air "Google" None) 2)
    as (_ & _ & _ & Hstop & _).
  assert (Hin : In (EvListen (Ok 7))
                   (trace (SpeechReg.stop_recording studio (on_air "Google" None) 2)))
    by (vm_compute; tauto).
  refine (conj eq_refl (conj (Hstart eq_refl) (conj Hin (Hstop 7 Hin)))).
Defined.

(** C5 fails as stated: in speech_mod.py, after one complete cycle a new
    [start_recording] leaves the session recording while [audio_data]
    still holds the capture of the cycle before, although nothing has been
    captured in the new cycle. *)
Lemma mod_start_keeps_the_old_capture :
  run_actions (SpeechMod.handle studio) [Do Start; Do Stop] (SpeechMod.init 0) 1
  = (mkSession false (PyStr "hello world") (Some 1) 2 (Some (Some 7)) "Google" "en-US" None,
     3,
     [EvMicrophone (Ok 1); EvRecognizer (Ok 2);
      EvOpen 1; EvListen (Ok 7); EvClose 1;
      EvRecognize Google (Some 7) (Ok "hello world")])
  /\ SpeechMod.start_recording
       studio
       (mkSession false (PyStr "hello world") (Some 1) 2 (Some (Some 7)) "Google" "en-US" None)
       3
     = mkRun (mkSession true (PyStr "hello world") (Some 3) 4 (Some (Some 7))
                        "Google" "en-US" None)
             5 [EvMicrophone (Ok 3); EvRecognizer (Ok 4)] (Returns tt).
Proof. split; reflexivity. Qed.

(** C6 fails as stated: two error texts do not begin with "Error: ".
    In speech_mod.py a microphone that fails while listening leaves the
    transcript "Recording error: Stream closed", without any recogniser
    having been called; in speech_reg.py a [sr.RequestError] of the
    recogniser gives "API Error: recognition connection failed". *)
Lemma error_texts_with_other_prefixes :
  run_actions (SpeechMod.handle unplugged) [Do Start; Do Stop] (SpeechMod.init 0) 1
  = (mkSession false (PyStr "Recording error: Stream closed") (Some 1) 2 (Some None)
               "Google" "en-US" None,
     3,
     [EvMicrophone (Ok 1); EvRecognizer (Ok 2);
      EvOpen 1; EvListen (Err (mkExn OtherException "Stream closed")); EvClose 1])
  /\ prefix "Error: " "Recording error: Stream closed" = false
  /\ SpeechReg.transcribe_speech offline "Google" "en-US" None (at_rest "Google" None) 0
     = mkRun (at_rest "Google" None) 0
             [EvRecognize Google (Some 7)
                          (Err (mkExn RequestError "recognition connection failed"))]
             (Returns (PyStr "API Error: recognition connection failed"))
  /\ prefix "Error: " "API Error: recognition connection failed" = false.
Proof. repeat apply conj; reflexivity. Qed.

(** ** The end-to-end scenarios *)

(** Recognisable speech with Google and "en-US": the transcript is the
    recognised text and the session is idle again. *)
Example scenario_speech :
  run_actions (SpeechReg.handle studio)
              [Choose "Google" "en-US" ""; Do Start; Do Stop] (SpeechReg.init 0) 1
  = (mkSession false (PyStr "hello world") (Some 1) 0 (Some (Some 7)) "Google" "en-US" None,
     2,
     [EvMicrophone (Ok 1); EvOpen 1; EvAdjust (Ok tt); EvClose 1;
      EvOpen 1; EvListen (Ok 7); EvClose 1;
      EvRecognize Google (Some 7) (Ok "hello world")]).
Proof. reflexivity. Qed.

(** A silent capture: the transcript begins with "Error:". *)
Example scenario_silence :
  fst (fst (run_actions (SpeechMod.handle silence)
                        [Choose "Sphinx" "en-US" ""; Do Start; Do Stop] (SpeechMod.init 0) 1))
  = mkSession false (PyStr "Error: Could not understand audio") (Some 1) 2 (Some (Some 7))
              "Sphinx" "en-US" None.
Proof. reflexivity. Qed.

(** Wit.ai with an empty key: the transcript names the missing key and no
    recogniser is called. *)
Example scenario_missing_key :
  run_actions (SpeechReg.handle studio)
              [Choose "Wit.ai" "en-US" ""; Do Start; Do Stop] (SpeechReg.init 0) 1
  = (mkSession false (PyStr "Error: Wit.ai API key is required") (Some 1) 0 (Some (Some 7))
               "Wit.ai" "en-US" (Some ""),
     2,
     [EvMicrophone (Ok 1); EvOpen 1; EvAdjust (Ok tt); EvClose 1;
      EvOpen 1; EvListen (Ok 7); EvClose 1]).
Proof. reflexivity. Qed.

(** A pause followed by a start records again. *)
Example scenario_pause_then_start :
  recording (fst (fst (run_actions (SpeechMod.handle studio)
                                   [Do Start; Do Pause; Do Start] (SpeechMod.init 0) 1)))
  = true.
Proof. reflexivity. Qed.

(** ** More about the adapter *)

Lemma eqb_name (api name : string) : (api =? name) = true -> api = name.
Proof. apply String.eqb_eq. Qed.

(** What a call of [transcribe_speech] does, with the recogniser it chose:
    it returns, leaves the session alone, and has called nothing or exactly
    the recogniser [api] names, on the session's audio; for a name of the
    select box it returns a text. *)
Lemma mod_transcribe_routes {World} (E : Env World) (api language : string)
      (key : option string) (s : Session) (w : World) :
  exists w' evs v,
    SpeechMod.transcribe_speech E api language key s w = mkRun s w' evs (Returns v)
    /\ (evs = []
        \/ exists b a r, evs = [EvRecognize b a r] /\ api = backend_name b
                         /\ audio_data s = Some a
                         /\ (b = WitAi -> not_ key = false))
    /\ (In api api_options -> exists t, v = PyStr t).
Proof.
  unfold_adapter. repeat split_match;
    eexists _, _, _; (split; [reflexivity |]); (split; [| intros Hopt]).
  all: try solve [eexists; reflexivity].
  all: try solve [now left].
  all: try solve [right; eexists _, _, _;
                  repeat split; try reflexivity; try assumption;
                  solve [now apply eqb_name | discriminate | intros _; assumption]].
  cbn [In api_options] in Hopt.
  destruct Hopt as [<- | [<- | [<- | []]]]; discriminate.
Qed.

Lemma reg_transcribe_routes {World} (E : Env World) (api language : string)
      (key : option string) (s : Session) (w : World) :
  exists w' evs v,
    SpeechReg.transcribe_speech E api language key s w = mkRun s w' evs (Returns v)
    /\ (evs = []
        \/ exists b a r, evs = [EvRecognize b a r] /\ api = backend_name b
                         /\ audio_data s = Some a
                         /\ (b = WitAi -> not_ key = false))
    /\ (In api api_options -> exists t, v = PyStr t).
Proof.
  unfold_adapter. repeat split_match;
    eexists _, _, _; (split; [reflexivity |]); (split; [| intros Hopt]).
  all: try solve [eexists; reflexivity].
  all: try solve [now left].
  all: try solve [right; eexists _, _, _;
                  repeat split; try reflexivity; try assumption;
                  solve [now apply eqb_name | discriminate | intros _; assumption]].
  cbn [In api_options] in Hopt.
  destruct Hopt as [<- | [<- | [<- | []]]]; discriminate.
Qed.

(** X1. [transcribe_speech] never raises and never changes the session,
    whatever the recogniser does, and it makes a single attempt: the trace
    holds at most one call, and nothing but calls of a recogniser. *)
Theorem adapter_never_raises_or_retries
        {World} (E : Env World) (api language : string) (key : option string)
        (s : Session) (w : World) :
  (session_after (SpeechMod.transcribe_speech E api language key s w) = s
   /\ (exists v, outcome (SpeechMod.transcribe_speech E api language key s w) = Returns v)
   /\ provider_calls (trace (SpeechMod.transcribe_speech E api language key s w)) <= 1
   /\ length (trace (SpeechMod.transcribe_speech E api language key s w))
      = provider_calls (trace (SpeechMod.transcribe_speech E api language key s w)))
  /\ (session_after (SpeechReg.transcribe_speech E api language key s w) = s
      /\ (exists v, outcome (SpeechReg.transcribe_speech E api language key s w) = Returns v)
      /\ provider_calls (trace (SpeechReg.transcribe_speech E api language key s w)) <= 1
      /\ length (trace (SpeechReg.transcribe_speech E api language key s w))
         = provider_calls (trace (SpeechReg.transcribe_speech E api language key s w))).
Proof.
  split.
  - destruct (mod_transcribe_routes E api language key s w)
      as (w' & evs & v & -> & [-> | (b & a & r & -> & _)] & _);
      cbn; repeat split; eauto.
  - destruct (reg_transcribe_routes E api language key s w)
      as (w' & evs & v & -> & [-> | (b & a & r & -> & _)] & _);
      cbn; repeat split; eauto.
Qed.

(** X2. The recogniser [transcribe_speech] calls is the one its [api]
    argument names, it is called on the audio the session holds, and
    Wit.ai is called only with a key that is neither [None] nor empty. *)
Theorem adapter_calls_the_selected_recogniser
        {World} (E : Env World) (api language : string) (key : option string)
        (s : Session) (w : World) (b : Backend) (a : option AudioData) (r : result string) :
  In (EvRecognize b a r) (trace (SpeechMod.transcribe_speech E api language key s w))
  \/ In (EvRecognize b a r) (trace (SpeechReg.transcribe_speech E api language key s w)) ->
  api = backend_name b /\ audio_data s = Some a /\ (b = WitAi -> not_ key = false).
Proof.
  intros [Hin | Hin].
  - destruct (mod_transcribe_routes E api language key s w)
      as (w' & evs & v & Hrun & [-> | (b' & a' & r' & -> & Hapi & Ha & Hk)] & _);
      rewrite Hrun in Hin; cbn [trace In] in Hin; [contradiction |].
    destruct Hin as [Heq | []]. injection Heq as <- <- <-. auto.
  - destruct (reg_transcribe_routes E api language key s w)
      as (w' & evs & v & Hrun & [-> | (b' & a' & r' & -> & Hapi & Ha & Hk)] & _);
      rewrite Hrun in Hin; cbn [trace In] in Hin; [contradiction |].
    destruct Hin as [Heq | []]. injection Heq as <- <- <-. auto.
Qed.

Lemma adapter_calls_the_selected_recogniser_witness :
  In (EvRecognize Sphinx (Some 7) (Ok "hello world"))
     (trace (SpeechMod.transcribe_speech studio "Sphinx" "en-US" None (at_rest "Sphinx" None) 0))
  /\ "Sphinx" = backend_name Sphinx
  /\ audio_data (at_rest "Sphinx" None) = Some (Some 7).
Proof.
  assert (Hin : In (EvRecognize Sphinx (Some 7) (Ok "hello world"))
                   (trace (SpeechMod.transcribe_speech studio "Sphinx" "en-US" None
                                                       (at_rest "Sphinx" None) 0)))
    by (left; reflexivity).
  pose proof (adapter_calls_the_selected_recogniser
                studio "Sphinx" "en-US" None (at_rest "Sphinx" None) 0
                Sphinx (Some 7) (Ok "hello world") (or_introl Hin)) as (Hname & Haudio & _).
  exact (conj Hin (conj Hname Haudio)).
Defined.

(** X4. What the recogniser answers reaches the caller unchanged: a
    recognised text is returned as it is, and the detail of an exception is
    appended as it is to the prefix of its class; speech that was not
    understood gives the fixed text of the script. *)
Theorem adapter_passes_text_and_detail
        {World} (E : Env World) (api language : string) (key : option string)
        (s : Session) (w : World) (b : Backend) (a : option AudioData) :
  (forall t,
      In (EvRecognize b a (Ok t)) (trace (SpeechMod.transcribe_speech E api language key s w)) ->
      outcome (SpeechMod.transcribe_speech E api language key s w) = Returns (PyStr t))
  /\ (forall e,
         In (EvRecognize b a (Err e)) (trace (SpeechMod.transcribe_speech E api language key s w)) ->
         outcome (SpeechMod.transcribe_speech E api language key s w)
         = Returns (PyStr match exn_class_of e with
                          | UnknownValueError => "Error: Could not understand audio"
                          | RequestError => "Error: API unavailable - " ++ exn_str e
                          | OtherException => "Error: " ++ exn_str e
                          end))
  /\ (forall t,
         In (EvRecognize b a (Ok t)) (trace (SpeechReg.transcribe_speech E api language key s w)) ->
         outcome (SpeechReg.transcribe_speech E api language key s w) = Returns (PyStr t))
  /\ (forall e,
         In (EvRecognize b a (Err e)) (trace (SpeechReg.transcribe_speech E api language key s w)) ->
         outcome (SpeechReg.transcribe_speech E api language key s w)
         = Returns (PyStr match exn_class_of e with
                          | UnknownValueError => "Error: Speech not understood"
                          | RequestError => "API Error: " ++ exn_str e
                          | OtherException => "Error: " ++ exn_str e
                          end)).
Proof.
  repeat apply conj; intros x; unfold_adapter; repeat split_match;
    cbn [In]; intros Hin;
    repeat match goal with
           | H : _ \/ _ |- _ => destruct H
           | H : False |- _ => contradiction
           | H : EvRecognize _ _ _ = EvRecognize _ _ _ |- _ => injection H as <- <- <-
           end;
    try discriminate;
    cbn [exn_class_of exn_str] in *;
    repeat match goal with
           | H : ?c = _ |- context [match ?c with _ => _ end] => rewrite H
           end;
    try reflexivity.
Qed.

Lemma adapter_passes_text_and_detail_witness :
  In (EvRecognize Google (Some 7) (Err (mkExn RequestError "recognition connection failed")))
     (trace (SpeechMod.transcribe_speech offline "Google" "en-US" None (at_rest "Google" None) 0))
  /\ outcome (SpeechMod.transcribe_speech offline "Google" "en-US" None (at_rest "Google" None) 0)
     = Returns (PyStr "Error: API unavailable - recognition connection failed").
Proof.
  assert (Hin : In (EvRecognize Google (Some 7)
                                (Err (mkExn RequestError "recognition connection failed")))
                   (trace (SpeechMod.transcribe_speech offline "Google" "en-US" None
                                                       (at_rest "Google" None) 0)))
    by (left; reflexivity).
  pose proof (adapter_passes_text_and_detail
                offline "Google" "en-US" None (at_rest "Google" None) 0 Google (Some 7))
    as (_ & Herr & _).
  exact (conj Hin (Herr _ Hin)).
Defined.

(** ** More about the state machine *)

(** X3. A setting the selected recogniser does not take has no effect on
    a stop: with Wit.ai selected the language changes neither the
    transcript nor the calls made nor the way [stop_recording] ends, and
    with Google or Sphinx selected the key changes none of them. *)
Theorem unused_settings_change_nothing
        {World} (E : Env World) (s : Session) (w : World)
        (l1 l2 : string) (k1 k2 : option string) (api : string) :
  (let r1 := SpeechMod.stop_recording E (with_settings "Wit.ai" l1 k1 s) w in
   let r2 := SpeechMod.stop_recording E (with_settings "Wit.ai" l2 k1 s) w in
   transcript (session_after r1) = transcript (session_after r2)
   /\ trace r1 = trace r2 /\ world_after r1 = world_after r2 /\ outcome r1 = outcome r2)
  /\ (let r1 := SpeechReg.stop_recording E (with_settings "Wit.ai" l1 k1 s) w in
      let r2 := SpeechReg.stop_recording E (with_settings "Wit.ai" l2 k1 s) w in
      transcript (session_after r1) = transcript (session_after r2)
      /\ trace r1 = trace r2 /\ world_after r1 = world_after r2 /\ outcome r1 = outcome r2)
  /\ (api = "Google" \/ api = "Sphinx" ->
      let r1 := SpeechMod.stop_recording E (with_settings api l1 k1 s) w in
      let r2 := SpeechMod.stop_recording E (with_settings api l1 k2 s) w in
      transcript (session_after r1) = transcript (session_after r2)
      /\ trace r1 = trace r2 /\ world_after r1 = world_after r2 /\ outcome r1 = outcome r2)
  /\ (api = "Google" \/ api = "Sphinx" ->
      let r1 := SpeechReg.stop_recording E (with_settings api l1 k1 s) w in
      let r2 := SpeechReg.stop_recording E (with_settings api l1 k2 s) w in
      transcript (session_after r1) = transcript (session_after r2)
      /\ trace r1 = trace r2 /\ world_after r1 = world_after r2 /\ outcome r1 = outcome r2).
Proof.
  repeat apply conj; try (intros [-> | ->]); cbv zeta;
    unfold_all; repeat split_more; repeat split; reflexivity.
Qed.

Lemma unused_settings_change_nothing_witness :
  ("Sphinx" = "Google" \/ "Sphinx" = "Sphinx")
  /\ trace (SpeechReg.stop_recording studio (on_air "Sphinx" None) 2)
     = trace (SpeechReg.stop_recording studio (on_air "Sphinx" (Some "a key")) 2).
Proof.
  pose proof (unused_settings_change_nothing
                studio (on_air "Sphinx" None) 2 "en-US" "en-US" None (Some "a key") "Sphinx")
    as (_ & _ & _ & Hreg).
  refine (conj (or_intror eq_refl) _).
  exact (proj1 (proj2 (Hreg (or_intror eq_refl)))).
Defined.

(** X5. [start_recording] sets the recording flag before it constructs
    the microphone.  When [sr.Microphone()] raises, the exception leaves
    [start_recording] in both scripts, nothing else has been assigned, and
    the session is left recording. *)
Theorem failed_start_leaves_the_session_recording
        {World} (E : Env World) (s : Session) (w w' : World) (e : exn) :
  new_Microphone E w = (w', Err e) ->
  SpeechMod.start_recording E s w
  = mkRun (with_recording true s) w' [EvMicrophone (Err e)] (Raises e)
  /\ SpeechReg.start_recording E s w
     = mkRun (with_recording true s) w' [EvMicrophone (Err e)] (Raises e).
Proof.
  intro Hmic. unfold_machine. rewrite Hmic. split; reflexivity.
Qed.

(** X6. A stop on a recording session that holds no microphone (the
    start before it failed): speech_mod.py returns, calls nothing in the
    library, and stores a "Recording error: " text; in speech_reg.py the
    exception of the [with] statement leaves [stop_recording] and the
    transcript is unchanged.  Both leave the session idle. *)
Theorem stop_without_a_microphone
        {World} (E : Env World) (s : Session) (w : World) :
  recording s = true -> audio_source s = None ->
  SpeechMod.stop_recording E s w
  = mkRun (with_transcript (PyStr ("Recording error: " ++ exn_str enter_None))
                           (with_recording false s))
          w [] (Returns tt)
  /\ SpeechReg.stop_recording E s w
     = mkRun (with_recording false s) w [] (Raises enter_None).
Proof.
  intros Hrec Hsrc. unfold_machine. rewrite Hrec.
  cbn [audio_source with_recording]. rewrite Hsrc. split; reflexivity.
Qed.

(** X8. [stop_recording] and [pause_recording] always leave the session
    idle, also when the capture fails and, in speech_reg.py, the exception
    leaves [stop_recording]. *)
Theorem stop_and_pause_end_idle
        {World} (E : Env World) (s : Session) (w : World) :
  recording (session_after (SpeechMod.stop_recording E s w)) = false
  /\ recording (session_after (SpeechReg.stop_recording E s w)) = false
  /\ recording (session_after (SpeechMod.pause_recording s w)) = false
  /\ recording (session_after (SpeechReg.pause_recording s w)) = false.
Proof.
  repeat apply conj;
    by_pages (@mod_transcribe_routes) (@reg_transcribe_routes);
    first [reflexivity | assumption].
Qed.

(** X10. A stop is one attempt: [stop_recording] listens at most once
    and calls a recogniser at most once, and only after it has listened. *)
Theorem stop_is_one_attempt
        {World} (E : Env World) (s : Session) (w : World) :
  (provider_calls (trace (SpeechMod.stop_recording E s w))
   <= captures (trace (SpeechMod.stop_recording E s w))
   /\ captures (trace (SpeechMod.stop_recording E s w)) <= 1)
  /\ (provider_calls (trace (SpeechReg.stop_recording E s w))
      <= captures (trace (SpeechReg.stop_recording E s w))
      /\ captures (trace (SpeechReg.stop_recording E s w)) <= 1).
Proof.
  repeat apply conj;
    by_pages (@mod_transcribe_routes) (@reg_transcribe_routes);
    repeat match goal with
           | H : _ \/ _ |- _ => destruct H as [-> | (? & ? & ? & -> & _)]
           end;
    cbn; lia.
Qed.

(** What one handler of speech_reg.py leaves alone. *)
Lemma reg_handle_keeps_recognizer {World} (E : Env World) (i : Intent)
      (s : Session) (w : World) :
  recognizer (session_after (SpeechReg.handle E i s w)) = recognizer s.
Proof.
  destruct i; by_pages (@mod_transcribe_routes) (@reg_transcribe_routes); reflexivity.
Qed.

(** X7. speech_reg.py keeps the recogniser of the session for good:
    after every sequence of actions the session holds the recogniser it
    started with (the one each calibration has adjusted). *)
Theorem reg_keeps_its_recognizer
        {World} (E : Env World) (acts : list Action) (s : Session) (w : World) :
  recognizer (fst (fst (run_actions (SpeechReg.handle E) acts s w))) = recognizer s.
Proof.
  revert s w.
  induction acts as [| [i | api language key_input] rest IH]; intros s w.
  - reflexivity.
  - cbn [run_actions].
    pose proof (reg_handle_keeps_recognizer E i s w) as Hstep.
    destruct (SpeechReg.handle E i s w) as [s1 w1 evs1 o1]. cbn [session_after] in Hstep.
    specialize (IH s1 w1).
    destruct (run_actions (SpeechReg.handle E) rest s1 w1) as [[s' w'] evs].
    cbn [fst] in *. congruence.
  - cbn [run_actions]. now rewrite IH.
Qed.

(** What start and pause leave alone, in either script. *)
Lemma start_and_pause_are_silent {World} (E : Env World) (i : Intent)
      (s : Session) (w : World) :
  i <> Stop ->
  (transcript (session_after (SpeechMod.handle E i s w)) = transcript s
   /\ captures (trace (SpeechMod.handle E i s w)) = 0
   /\ provider_calls (trace (SpeechMod.handle E i s w)) = 0)
  /\ (transcript (session_after (SpeechReg.handle E i s w)) = transcript s
      /\ captures (trace (SpeechReg.handle E i s w)) = 0
      /\ provider_calls (trace (SpeechReg.handle E i s w)) = 0).
Proof.
  intro Hi. destruct i; [| | contradiction];
    repeat apply conj;
    by_pages (@mod_transcribe_routes) (@reg_transcribe_routes); reflexivity.
Qed.

Lemma captures_app (xs ys : list Event) :
  captures (xs ++ ys) = captures xs + captures ys.
Proof. unfold captures. now rewrite filter_app, length_app. Qed.

Lemma provider_calls_app (xs ys : list Event) :
  provider_calls (xs ++ ys) = provider_calls xs + provider_calls ys.
Proof. unfold provider_calls. now rewrite filter_app, length_app. Qed.

Lemma run_actions_silent {World} (handle : Intent -> M World unit) :
  (forall i s w, i <> Stop ->
                 transcript (session_after (handle i s w)) = transcript s
                 /\ captures (trace (handle i s w)) = 0
                 /\ provider_calls (trace (handle i s w)) = 0) ->
  forall acts s w,
    forallb (fun a => negb (is_stop a)) acts = true ->
    transcript (fst (fst (run_actions handle acts s w))) = transcript s
    /\ captures (snd (run_actions handle acts s w)) = 0
    /\ provider_calls (snd (run_actions handle acts s w)) = 0.
Proof.
  intros Hstep acts.
  induction acts as [| [i | api language key_input] rest IH]; intros s w Hno.
  - repeat split.
  - cbn [forallb] in Hno. apply andb_true_iff in Hno as [Hi Hrest].
    assert (Hne : i <> Stop) by (intros ->; discriminate Hi).
    cbn [run_actions].
    destruct (Hstep i s w Hne) as (Ht & Hc & Hp).
    destruct (handle i s w) as [s1 w1 evs1 o1]. cbn [session_after trace] in *.
    destruct (IH s1 w1 Hrest) as (Ht' & Hc' & Hp').
    destruct (run_actions handle rest s1 w1) as [[s' w'] evs].
    cbn [fst snd] in *.
    rewrite captures_app, provider_calls_app, Hc, Hc', Hp, Hp'.
    repeat split. congruence.
  - cbn [forallb] in Hno. apply andb_true_iff in Hno as [_ Hrest].
    cbn [run_actions]. apply (IH (sidebar api language key_input s) w Hrest).
Qed.

(** X9. Only a stop produces a transcript: over every sequence of
    actions without a Stop (starts, pauses, changes of the settings), in
    either script and whatever the library does, the transcript stays what
    it was, nothing is listened to and no recogniser is called. *)
Theorem only_stop_produces_a_transcript
        {World} (E : Env World) (acts : list Action) (s : Session) (w : World) :
  forallb (fun a => negb (is_stop a)) acts = true ->
  (transcript (fst (fst (run_actions (SpeechMod.handle E) acts s w))) = transcript s
   /\ captures (snd (run_actions (SpeechMod.handle E) acts s w)) = 0
   /\ provider_calls (snd (run_actions (SpeechMod.handle E) acts s w)) = 0)
  /\ (transcript (fst (fst (run_actions (SpeechReg.handle E) acts s w))) = transcript s
      /\ captures (snd (run_actions (SpeechReg.handle E) acts s w)) = 0
      /\ provider_calls (snd (run_actions (SpeechReg.handle E) acts s w)) = 0).
Proof.
  intro Hno. split; apply run_actions_silent; try assumption; intros i s' w' Hi.
  - exact (proj1 (start_and_pause_are_silent E i s' w' Hi)).
  - exact (proj2 (start_and_pause_are_silent E i s' w' Hi)).
Qed.

Lemma only_stop_produces_a_transcript_witness :
  forallb (fun a => negb (is_stop a))
          [Do Start; Do Pause; Choose "Sphinx" "fr-FR" ""; Do Start] = true
  /\ transcript (fst (fst (run_actions (SpeechReg.handle studio)
                                       [Do Start; Do Pause; Choose "Sphinx" "fr-FR" ""; Do Start]
                                       (at_rest "Google" None) 2)))
     = PyStr "earlier words".
Proof.
  refine (conj eq_refl _).
  exact (proj1 (proj2 (only_stop_produces_a_transcript
                         studio [Do Start; Do Pause; Choose "Sphinx" "fr-FR" ""; Do Start]
                         (at_rest "Google" None) 2 eq_refl))).
Defined.

(** ** The page *)

Lemma mod_main_keeps_text {World Time} (E : Env World) (passed : Time -> Time -> bool)
      (ui : Inputs) (now : Time) (b : SpeechModMain.Blink) (s : Session) (w : World) :
  In (api_box ui) api_options ->
  (exists t, transcript s = PyStr t) ->
  exists t, transcript (session_after (SpeechModMain.main E passed ui now b s w)) = PyStr t.
Proof.
  intros Hopt Htext.
  by_pages (@mod_transcribe_routes) (@reg_transcribe_routes); eauto.
Qed.

Lemma reg_main_keeps_text {World} (E : Env World)
      (ui : Inputs) (s : Session) (w : World) :
  In (api_box ui) api_options ->
  (exists t, transcript s = PyStr t) ->
  exists t, transcript (session_after (SpeechRegMain.main E ui s w)) = PyStr t.
Proof.
  intros Hopt Htext.
  by_pages (@mod_transcribe_routes) (@reg_transcribe_routes); eauto.
Qed.

(** X11. Through the page the transcript is always a text, never
    [None]: when every script run selects one of the three names of the
    select box, a session whose transcript is a text (as the initial empty
    one) has a text as transcript after any number of script runs, however
    each run ends. *)
Theorem transcript_stays_text
        {World Time} (E : Env World) (passed : Time -> Time -> bool) :
  (forall (runs : list (Inputs * Time)) (b : SpeechModMain.Blink) (s : Session) (w : World),
      Forall (fun r => In (api_box (fst r)) api_options) runs ->
      (exists t, transcript s = PyStr t) ->
      exists t, transcript (snd (fst (SpeechModMain.reruns E passed runs b s w))) = PyStr t)
  /\ (forall (runs : list Inputs) (s : Session) (w : World),
         Forall (fun ui => In (api_box ui) api_options) runs ->
         (exists t, transcript s = PyStr t) ->
         exists t, transcript (fst (SpeechRegMain.reruns E runs s w)) = PyStr t).
Proof.
  split.
  - induction runs as [| [ui now] rest IH]; intros b s w Hopt Htext.
    + exact Htext.
    + inversion Hopt as [| ? ? Hui Hrest]; subst.
      cbn [SpeechModMain.reruns].
      pose proof (mod_main_keeps_text E passed ui now b s w Hui Htext) as Hstep.
      destruct (SpeechModMain.main E passed ui now b s w) as [s1 w1 evs1 [[b1 p] | e |]];
        cbn [session_after] in Hstep; now apply IH.
  - induction runs as [| ui rest IH]; intros s w Hopt Htext.
    + exact Htext.
    + inversion Hopt as [| ? ? Hui Hrest]; subst.
      cbn [SpeechRegMain.reruns].
      pose proof (reg_main_keeps_text E ui s w Hui Htext) as Hstep.
      destruct (SpeechRegMain.main E ui s w) as [s1 w1 evs1 o1];
        cbn [session_after] in Hstep; now apply IH.
Qed.

(** X12. The Start button is drawn from the recording flag as it was
    before the buttons were handled: on every page a script run draws,
    [disabled] of Start is the flag the run began with.  So the page of
    the run that handles a Stop on a recording session shows Start
    disabled although the session is idle by then. *)
Theorem start_button_shows_the_flag_before_the_press
        {World Time} (E : Env World) (passed : Time -> Time -> bool)
        (ui : Inputs) (now : Time) (b b' : SpeechModMain.Blink)
        (s : Session) (w : World) (p : Page) :
  (outcome (SpeechModMain.main E passed ui now b s w) = Returns (b', p) ->
   start_disabled p = recording s
   /\ (stop_pressed ui = true ->
       recording (session_after (SpeechModMain.main E passed ui now b s w)) = false))
  /\ (outcome (SpeechRegMain.main E ui s w) = Returns p ->
      start_disabled p = recording s
      /\ (stop_pressed ui = true ->
          recording (session_after (SpeechRegMain.main E ui s w)) = false)).
Proof.
  split;
    by_pages (@mod_transcribe_routes) (@reg_transcribe_routes);
    intro Hp; try discriminate Hp; injection Hp as <-; subst;
    cbn [start_disabled]; split;
    solve [ reflexivity | assumption | symmetry; assumption
          | intro; solve [reflexivity | assumption | discriminate] ].
Qed.

(** X13. On an idle session with Start not pressed, a script run calls
    nothing in the library whichever of Stop and Pause is pressed: the
    session changes by the settings of the sidebar only, and the page shows
    Start enabled, Stop disabled, no warning and the transcript as it
    was. *)
Theorem presses_on_an_idle_session_do_nothing
        {World Time} (E : Env World) (passed : Time -> Time -> bool)
        (ui : Inputs) (now : Time) (b : SpeechModMain.Blink) (s : Session) (w : World) :
  recording s = false -> start_pressed ui = false ->
  SpeechModMain.main E passed ui now b s w
  = mkRun (sidebar (api_box ui) (language_box ui) (key_box ui) s) w []
          (Returns (b, mkPage false true None false None (transcript s)
                              (if truthy (transcript s)
                               then Some (transcript s, false) else None)))
  /\ SpeechRegMain.main E ui s w
     = mkRun (sidebar (api_box ui) (language_box ui) (key_box ui) s) w []
             (Returns (mkPage false true (Some true) false None (transcript s)
                              (Some (PyStr (getvalue (transcript s)),
                                     negb (truthy (transcript s)))))).
Proof.
  intros Hidle Hstart.
  split; by_pages (@mod_transcribe_routes) (@reg_transcribe_routes);
    first [ congruence
          | repeat match goal with
                   | H : recording _ = _ |- _ => rewrite H
                   end; reflexivity ].
Qed.

(** X14. What can be saved is what is shown: on every page a script run
    draws, the output area holds the transcript of the session, an enabled
    download button carries exactly that text and the text is not empty,
    and whenever the transcript is a non-empty text such a button is
    there. *)
Theorem download_offers_the_transcript
        {World Time} (E : Env World) (passed : Time -> Time -> bool)
        (ui : Inputs) (now : Time) (b b' : SpeechModMain.Blink)
        (s : Session) (w : World) (p : Page) :
  (outcome (SpeechModMain.main E passed ui now b s w) = Returns (b', p) ->
   output p = transcript (session_after (SpeechModMain.main E passed ui now b s w))
   /\ (forall d, save p = Some (d, false) -> d = output p /\ truthy d = true)
   /\ (truthy (output p) = true -> save p = Some (output p, false)))
  /\ (outcome (SpeechRegMain.main E ui s w) = Returns p ->
      output p = transcript (session_after (SpeechRegMain.main E ui s w))
      /\ (forall d, save p = Some (d, false) -> d = output p /\ truthy d = true)
      /\ (truthy (output p) = true -> save p = Some (output p, false))).
Proof.
  assert (Hsave_mod : forall t d,
             (if truthy t then Some (t, false) else None) = Some (d, false) ->
             d = t /\ truthy d = true).
  { intros t d. destruct (truthy t) eqn:Ht; [| discriminate].
    intros [= <-]. now split. }
  assert (Hsave_reg : forall t d,
             Some (PyStr (getvalue t), negb (truthy t)) = Some (d, false) ->
             d = t /\ truthy d = true).
  { intros [| [| c t]] d; cbn; intros [= <-]; try discriminate. now split. }
  assert (Hoffer_mod : forall t, truthy t = true ->
             (if truthy t then Some (t, false) else None) = Some (t, false)).
  { now intros t ->. }
  assert (Hoffer_reg : forall t, truthy t = true ->
             Some (PyStr (getvalue t), negb (truthy t)) = Some (t, false)).
  { intros [| [| c t]]; cbn; try discriminate. reflexivity. }
  split;
    by_pages (@mod_transcribe_routes) (@reg_transcribe_routes);
    intro Hp; try discriminate Hp; injection Hp as <-; subst;
    cbn [output save]; (split; [reflexivity |]); split; auto;
    try match goal with
        | H : truthy (PyStr _) = false |- _ => cbn in H; discriminate H
        end;
    first [ intros d [= <-]; split; [reflexivity | assumption]
          | intros d Hd; discriminate Hd
          | intro Ht; congruence ].
Qed.

(** X17. In speech_reg.py a Pause pressed on a recording session (Start
    not pressed) ends the script run at once by the rerun request: the
    session is idle, nothing in the library was called, a Stop of the same
    run is not handled and no page is drawn. *)
Theorem reg_pause_ends_the_run
        {World} (E : Env World) (ui : Inputs) (s : Session) (w : World) :
  recording s = true -> start_pressed ui = false -> pause_pressed ui = true ->
  SpeechRegMain.main E ui s w
  = mkRun (with_recording false (sidebar (api_box ui) (language_box ui) (key_box ui) s))
          w [] Reruns.
Proof.
  intros Hrec Hstart Hpause.
  by_pages (@mod_transcribe_routes) (@reg_transcribe_routes);
    first [ congruence
          | repeat match goal with
                   | H : recording _ = _ |- _ => rewrite H
                   end; reflexivity ].
Qed.

(** X18. The recogniser a script run calls is the one selected in the
    sidebar in that same run. *)
Theorem page_calls_the_selected_recogniser
        {World Time} (E : Env World) (passed : Time -> Time -> bool)
        (ui : Inputs) (now : Time) (b : SpeechModMain.Blink) (s : Session) (w : World)
        (k : Backend) (a : option AudioData) (r : result string) :
  In (EvRecognize k a r) (trace (SpeechModMain.main E passed ui now b s w))
  \/ In (EvRecognize k a r) (trace (SpeechRegMain.main E ui s w)) ->
  api_box ui = backend_name k.
Proof.
  intros [Hin | Hin]; revert Hin;
    by_pages (@mod_transcribe_routes) (@reg_transcribe_routes);
    repeat match goal with
           | H : _ = [] \/ _ |- _ => destruct H as [-> | (? & ? & ? & -> & ? & _)]
           end;
    cbn [In app]; intros Hin;
    repeat match goal with
           | H : _ \/ _ |- _ => destruct H
           | H : False |- _ => contradiction
           | H : In _ (_ ++ _) |- _ => apply in_app_or in H; cbn [In] in H
           end;
    try discriminate;
    match goal with
    | H : EvRecognize _ _ _ = EvRecognize _ _ _ |- _ => injection H as <- <- <-; assumption
    end.
Qed.

Lemma calibrations_app (xs ys : list Event) :
  calibrations (xs ++ ys) = calibrations xs + calibrations ys.
Proof. unfold calibrations. now rewrite filter_app, length_app. Qed.

Lemma mod_handle_never_calibrates {World} (E : Env World) (i : Intent)
      (s : Session) (w : World) :
  calibrations (trace (SpeechMod.handle E i s w)) = 0.
Proof.
  destruct i; by_pages (@mod_transcribe_routes) (@reg_transcribe_routes);
    repeat match goal with
           | H : _ = [] \/ _ |- _ => destruct H as [-> | (? & ? & ? & -> & _)]
           end;
    reflexivity.
Qed.

(** X19. Only speech_reg.py calibrates.  speech_mod.py never calls
    [adjust_for_ambient_noise], over any sequence of actions.  In
    speech_reg.py a [start_recording] that returns has constructed the
    microphone, opened it, calibrated once and closed it again, and has
    stored that microphone in the session. *)
Theorem calibration_runs_on_every_start_of_reg
        {World} (E : Env World) (acts : list Action) (s : Session) (w : World) :
  calibrations (snd (run_actions (SpeechMod.handle E) acts s w)) = 0
  /\ (outcome (SpeechReg.start_recording E s w) = Returns tt ->
      exists m,
        trace (SpeechReg.start_recording E s w)
        = [EvMicrophone (Ok m); EvOpen m; EvAdjust (Ok tt); EvClose m]
        /\ audio_source (session_after (SpeechReg.start_recording E s w)) = Some m).
Proof.
  split.
  - revert s w.
    induction acts as [| [i | api language key_input] rest IH]; intros s w.
    + reflexivity.
    + cbn [run_actions].
      pose proof (mod_handle_never_calibrates E i s w) as Hstep.
      destruct (SpeechMod.handle E i s w) as [s1 w1 evs1 o1]. cbn [trace] in Hstep.
      specialize (IH s1 w1).
      destruct (run_actions (SpeechMod.handle E) rest s1 w1) as [[s' w'] evs].
      cbn [snd] in *. now rewrite calibrations_app, Hstep, IH.
    + cbn [run_actions]. apply IH.
  - by_pages (@mod_transcribe_routes) (@reg_transcribe_routes);
      intro Hret; try discriminate Hret.
    match goal with
    | u : unit |- _ => destruct u
    end.
    eexists. split; reflexivity.
Qed.

Lemma calibration_runs_on_every_start_of_reg_witness :
  outcome (SpeechReg.start_recording studio (SpeechReg.init 0) 1) = Returns tt
  /\ exists m,
      trace (SpeechReg.start_recording studio (SpeechReg.init 0) 1)
      = [EvMicrophone (Ok m); EvOpen m; EvAdjust (Ok tt); EvClose m]
      /\ audio_source (session_after (SpeechReg.start_recording studio (SpeechReg.init 0) 1))
         = Some m.
Proof.
  refine (conj eq_refl _).
  exact (proj2 (calibration_runs_on_every_start_of_reg studio [] (SpeechReg.init 0) 1)
               eq_refl).
Defined.

(** X15. The listening indicator of speech_mod.py reads
    [indicator_state] although it assigns it only when more than half a
    second has passed since [last_update].  So a script run that reaches
    the indicator on a recording session before [indicator_state] was ever
    assigned, and within that half second, ends with the [AttributeError]
    of that attribute: after a successful Start press the session is
    recording and no page is drawn, and a run on a recording session with
    nothing pressed does the same. *)
Theorem indicator_raises_before_its_first_update
        {World Time} (E : Env World) (passed : Time -> Time -> bool)
        (ui : Inputs) (now : Time) (b : SpeechModMain.Blink) (s : Session) (w : World) :
  SpeechModMain.indicator_state b = None ->
  passed now (SpeechModMain.last_update b) = false ->
  stop_pressed ui = false -> pause_pressed ui = false ->
  (start_pressed ui = true ->
   outcome (SpeechMod.start_recording
              E (sidebar (api_box ui) (language_box ui) (key_box ui) s) w) = Returns tt ->
   outcome (SpeechModMain.main E passed ui now b s w)
   = Raises SpeechModMain.no_indicator_state
   /\ recording (session_after (SpeechModMain.main E passed ui now b s w)) = true)
  /\ (start_pressed ui = false -> recording s = true ->
      SpeechModMain.main E passed ui now b s w
      = mkRun (sidebar (api_box ui) (language_box ui) (key_box ui) s) w []
              (Raises SpeechModMain.no_indicator_state)).
Proof.
  intros Hunset Hearly Hstop Hpause. split.
  - intros Hstart.
    by_pages (@mod_transcribe_routes) (@reg_transcribe_routes);
      intro Hret; try discriminate Hret;
      first [congruence | split; reflexivity].
  - intros Hstart Hrec.
    by_pages (@mod_transcribe_routes) (@reg_transcribe_routes);
      first [ congruence
            | repeat match goal with
                     | H : recording _ = _ |- _ => rewrite H
                     end; reflexivity ].
Qed.

Lemma indicator_raises_before_its_first_update_witness :
  SpeechModMain.indicator_state (new_blink 100) = None
  /\ tenths 103 (SpeechModMain.last_update (new_blink 100)) = false
  /\ outcome (SpeechMod.start_recording
                studio (sidebar "Google" "en-US" "" (SpeechMod.init 0)) 1) = Returns tt
  /\ outcome (SpeechModMain.main studio tenths (press "Google" "" true false false)
                                 103 (new_blink 100) (SpeechMod.init 0) 1)
     = Raises SpeechModMain.no_indicator_state
  /\ recording (session_after
                  (SpeechModMain.main studio tenths (press "Google" "" true false false)
                                      103 (new_blink 100) (SpeechMod.init 0) 1)) = true.
Proof.
  pose proof (indicator_raises_before_its_first_update
                studio tenths (press "Google" "" true false false) 103 (new_blink 100)
                (SpeechMod.init 0) 1 eq_refl eq_refl eq_refl eq_refl) as [Hfirst _].
  exact (conj eq_refl (conj eq_refl (conj eq_refl (Hfirst eq_refl eq_refl)))).
Defined.

Lemma mod_main_keeps_indicator_set {World Time} (E : Env World)
      (passed : Time -> Time -> bool) (ui : Inputs) (now : Time)
      (b b' : SpeechModMain.Blink) (p : Page) (s : Session) (w : World) :
  SpeechModMain.indicator_state b <> None ->
  outcome (SpeechModMain.main E passed ui now b s w) = Returns (b', p) ->
  SpeechModMain.indicator_state b' <> None.
Proof.
  intros Hset.
  by_pages (@mod_transcribe_routes) (@reg_transcribe_routes);
    intro Hp; try discriminate Hp; injection Hp as <- _; cbn; congruence.
Qed.

(** X16. Once [indicator_state] has been assigned it stays assigned over
    every sequence of script runs, so the indicator block does not raise
    again: with the attribute holding [v] it shows the other bullet and
    takes [now] as [last_update] when more than half a second has passed,
    and shows the same bullet and changes nothing otherwise. *)
Theorem indicator_stays_assigned
        {World Time} (E : Env World) (passed : Time -> Time -> bool)
        (runs : list (Inputs * Time)) (now : Time) (v : bool)
        (b : SpeechModMain.Blink) (s : Session) (w : World) :
  SpeechModMain.indicator_state b = Some v ->
  SpeechModMain.indicator_state (fst (fst (SpeechModMain.reruns E passed runs b s w))) <> None
  /\ SpeechModMain.indicator passed now b
     = if passed now (SpeechModMain.last_update b)
       then (SpeechModMain.mkBlink now (Some (negb v)), Ok (negb v))
       else (b, Ok v).
Proof.
  intro Hset. split.
  - assert (Hne : SpeechModMain.indicator_state b <> None) by congruence.
    clear Hset. revert b s w Hne.
    induction runs as [| [ui t] rest IH]; intros b s w Hne.
    + exact Hne.
    + cbn [SpeechModMain.reruns].
      pose proof (fun b' p => mod_main_keeps_indicator_set E passed ui t b b' p s w Hne)
        as Hstep.
      destruct (SpeechModMain.main E passed ui t b s w) as [s1 w1 evs1 [[b1 p] | e |]];
        cbn [outcome] in Hstep; apply IH; eauto.
  - unfold SpeechModMain.indicator.
    destruct (passed now (SpeechModMain.last_update b)); cbn; now rewrite Hset.
Qed.

Lemma indicator_stays_assigned_witness :
  SpeechModMain.indicator_state (SpeechModMain.mkBlink 100 (Some true)) = Some true
  /\ SpeechModMain.indicator tenths 106 (SpeechModMain.mkBlink 100 (Some true))
     = (SpeechModMain.mkBlink 106 (Some false), Ok false)
  /\ SpeechModMain.indicator tenths 103 (SpeechModMain.mkBlink 100 (Some true))
     = (SpeechModMain.mkBlink 100 (Some true), Ok true).
Proof.
  refine (conj eq_refl (conj _ _)).
  - exact (proj2 (indicator_stays_assigned
                    studio tenths [] 106 true (SpeechModMain.mkBlink 100 (Some true))
                    (SpeechMod.init 0) 1 eq_refl)).
  - exact (proj2 (indicator_stays_assigned
                    studio tenths [] 103 true (SpeechModMain.mkBlink 100 (Some true))
                    (SpeechMod.init 0) 1 eq_refl)).
Defined.

(** ** Witnesses of the properties above *)

Lemma failed_start_leaves_the_session_recording_witness :
  new_Microphone no_device 1
  = (1, Err (mkExn OtherException "No Default Input Device Available"))
  /\ SpeechMod.start_recording no_device (SpeechMod.init 0) 1
     = mkRun (with_recording true (SpeechMod.init 0)) 1
             [EvMicrophone (Err (mkExn OtherException "No Default Input Device Available"))]
             (Raises (mkExn OtherException "No Default Input Device Available")).
Proof.
  refine (conj eq_refl _).
  exact (proj1 (failed_start_leaves_the_session_recording
                  no_device (SpeechMod.init 0) 1 1 _ eq_refl)).
Defined.

Lemma stop_without_a_microphone_witness :
  recording (with_recording true (SpeechMod.init 0)) = true
  /\ audio_source (with_recording true (SpeechMod.init 0)) = None
  /\ transcript (session_after (SpeechMod.stop_recording
                                  no_device (with_recording true (SpeechMod.init 0)) 1))
     = PyStr "Recording error: __enter__".
Proof.
  refine (conj eq_refl (conj eq_refl _)).
  rewrite (proj1 (stop_without_a_microphone
                    no_device (with_recording true (SpeechMod.init 0)) 1 eq_refl eq_refl)).
  reflexivity.
Defined.

Lemma transcript_stays_text_witness :
  Forall (fun ui => In (api_box ui) api_options)
         [press "Wit.ai" "" true false false; press "Wit.ai" "" false true false]
  /\ (exists t, transcript (SpeechReg.init 0) = PyStr t)
  /\ exists t, transcript (fst (SpeechRegMain.reruns
                                  silence
                                  [press "Wit.ai" "" true false false;
                                   press "Wit.ai" "" false true false]
                                  (SpeechReg.init 0) 1)) = PyStr t.
Proof.
  assert (Hopt : Forall (fun ui => In (api_box ui) api_options)
                        [press "Wit.ai" "" true false false;
                         press "Wit.ai" "" false true false])
    by (repeat constructor; cbn; tauto).
  assert (Htext : exists t, transcript (SpeechReg.init 0) = PyStr t)
    by (eexists; reflexivity).
  refine (conj Hopt (conj Htext _)).
  exact (proj2 (transcript_stays_text (Time := nat) silence tenths) _ (SpeechReg.init 0) 1
               Hopt Htext).
Defined.

Lemma start_button_shows_the_flag_before_the_press_witness :
  outcome (SpeechRegMain.main studio (press "Google" "" false true false)
                              (on_air "Google" None) 2)
  = Returns (mkPage true false (Some false) false None (PyStr "hello world")
                    (Some (PyStr "hello world", false)))
  /\ start_disabled (mkPage true false (Some false) false None (PyStr "hello world")
                            (Some (PyStr "hello world", false)))
     = recording (on_air "Google" None)
  /\ recording (session_after
                  (SpeechRegMain.main studio (press "Google" "" false true false)
                                      (on_air "Google" None) 2)) = false.
Proof.
  pose proof (start_button_shows_the_flag_before_the_press
                studio tenths (press "Google" "" false true false) 0
                (new_blink 0) (new_blink 0) (on_air "Google" None) 2
                (mkPage true false (Some false) false None (PyStr "hello world")
                        (Some (PyStr "hello world", false)))) as [_ Hreg].
  destruct (Hreg eq_refl) as [Hshown Hidle].
  exact (conj eq_refl (conj Hshown (Hidle eq_refl))).
Defined.

Lemma presses_on_an_idle_session_do_nothing_witness :
  recording (at_rest "Google" None) = false
  /\ start_pressed (press "Sphinx" "" false true true) = false
  /\ trace (SpeechRegMain.main studio (press "Sphinx" "" false true true)
                               (at_rest "Google" None) 2) = [].
Proof.
  refine (conj eq_refl (conj eq_refl _)).
  rewrite (proj2 (presses_on_an_idle_session_do_nothing
                    studio tenths (press "Sphinx" "" false true true) 0 (new_blink 0)
                    (at_rest "Google" None) 2 eq_refl eq_refl)).
  reflexivity.
Defined.

Lemma download_offers_the_transcript_witness :
  outcome (SpeechModMain.main studio tenths (press "Google" "" false false false)
                              0 (new_blink 0) (at_rest "Google" None) 2)
  = Returns (new_blink 0,
             mkPage false true None false None (PyStr "earlier words")
                    (Some (PyStr "earlier words", false)))
  /\ truthy (PyStr "earlier words") = true
  /\ save (mkPage false true None false None (PyStr "earlier words")
                  (Some (PyStr "earlier words", false)))
     = Some (output (mkPage false true None false None (PyStr "earlier words")
                            (Some (PyStr "earlier words", false))), false).
Proof.
  pose proof (download_offers_the_transcript
                studio tenths (press "Google" "" false false false) 0
                (new_blink 0) (new_blink 0) (at_rest "Google" None) 2
                (mkPage false true None false None (PyStr "earlier words")
                        (Some (PyStr "earlier words", false)))) as [Hmod _].
  destruct (Hmod eq_refl) as (_ & _ & Hoffer).
  exact (conj eq_refl (conj eq_refl (Hoffer eq_refl))).
Defined.

Lemma reg_pause_ends_the_run_witness :
  recording (on_air "Google" None) = true
  /\ SpeechRegMain.main studio (press "Google" "" false true true) (on_air "Google" None) 2
     = mkRun (with_recording false (sidebar "Google" "en-US" "" (on_air "Google" None)))
             2 [] Reruns.
Proof.
  refine (conj eq_refl _).
  exact (reg_pause_ends_the_run studio (press "Google" "" false true true)
                                (on_air "Google" None) 2 eq_refl eq_refl eq_refl).
Defined.

Lemma page_calls_the_selected_recogniser_witness :
  In (EvRecognize Sphinx (Some 7) (Ok "hello world"))
     (trace (SpeechRegMain.main studio (press "Sphinx" "" false true false)
                                (on_air "Google" None) 2))
  /\ api_box (press "Sphinx" "" false true false) = backend_name Sphinx.
Proof.
  assert (Hin : In (EvRecognize Sphinx (Some 7) (Ok "hello world"))
                   (trace (SpeechRegMain.main studio (press "Sphinx" "" false true false)
                                              (on_air "Google" None) 2)))
    by (vm_compute; tauto).
  exact (conj Hin (page_calls_the_selected_recogniser
                     studio tenths (press "Sphinx" "" false true false) 0 (new_blink 0)
                     (on_air "Google" None) 2 Sphinx (Some 7) (Ok "hello world")
                     (or_intror Hin))).
Defined.

(** ** Silent audio, error texts, the guard of start, the device *)

(** C8, as the code has it.  When the recogniser that is selected,
    called on the audio of the session with the language (the key, for
    Wit.ai) of the call, raises [sr.UnknownValueError], [transcribe_speech]
    makes that one call and returns the text for speech that was not
    understood: "Error: Could not understand audio" in speech_mod.py,
    "Error: Speech not understood" in speech_reg.py.  The exception is
    Wit.ai with a key that is [None] or empty: the recogniser is not
    consulted and the text for the missing key is returned. *)
Theorem silent_audio_is_not_understood
        {World} (E : Env World) (language : string) (key : option string)
        (s : Session) (w w' : World) (a : option AudioData) (e : exn) :
  audio_data s = Some a ->
  exn_class_of e = UnknownValueError ->
  (recognize_google E (recognizer s) a language w = (w', Err e) ->
   SpeechMod.transcribe_speech E "Google" language key s w
   = mkRun s w' [EvRecognize Google a (Err e)]
           (Returns (PyStr "Error: Could not understand audio"))
   /\ SpeechReg.transcribe_speech E "Google" language key s w
      = mkRun s w' [EvRecognize Google a (Err e)]
              (Returns (PyStr "Error: Speech not understood")))
  /\ (recognize_sphinx E (recognizer s) a language w = (w', Err e) ->
      SpeechMod.transcribe_speech E "Sphinx" language key s w
      = mkRun s w' [EvRecognize Sphinx a (Err e)]
              (Returns (PyStr "Error: Could not understand audio"))
      /\ SpeechReg.transcribe_speech E "Sphinx" language key s w
         = mkRun s w' [EvRecognize Sphinx a (Err e)]
                 (Returns (PyStr "Error: Speech not understood")))
  /\ (forall k,
         key = Some k -> k <> "" ->
         recognize_wit E (recognizer s) a k w = (w', Err e) ->
         SpeechMod.transcribe_speech E "Wit.ai" language key s w
         = mkRun s w' [EvRecognize WitAi a (Err e)]
                 (Returns (PyStr "Error: Could not understand audio"))
         /\ SpeechReg.transcribe_speech E "Wit.ai" language key s w
            = mkRun s w' [EvRecognize WitAi a (Err e)]
                    (Returns (PyStr "Error: Speech not understood")))
  /\ (not_ key = true ->
      SpeechMod.transcribe_speech E "Wit.ai" language key s w
      = mkRun s w [] (Returns (PyStr "Error: Wit.ai API key is required"))
      /\ SpeechReg.transcribe_speech E "Wit.ai" language key s w
         = mkRun s w [] (Returns (PyStr "Error: Wit.ai API key is required"))).
Proof.
  intros Haudio Hclass. destruct e as [c d]. cbn in Hclass. subst c.
  repeat apply conj.
  - intro Hcall. unfold_adapter. cbn [String.eqb Ascii.eqb Bool.eqb].
    rewrite Haudio, Hcall. split; reflexivity.
  - intro Hcall. unfold_adapter. cbn [String.eqb Ascii.eqb Bool.eqb].
    rewrite Haudio, Hcall. split; reflexivity.
  - intros k -> Hk Hcall.
    assert (Hkey : not_ (Some k) = false) by (destruct k; [now elim Hk | reflexivity]).
    unfold_adapter. cbn [String.eqb Ascii.eqb Bool.eqb].
    rewrite Hkey, Haudio, Hcall. split; reflexivity.
  - intro Hkey. unfold_adapter. cbn [String.eqb Ascii.eqb Bool.eqb].
    rewrite Hkey. split; reflexivity.
Qed.

Lemma silent_audio_is_not_understood_witness :
  audio_data (at_rest "Sphinx" None) = Some (Some 7)
  /\ recognize_sphinx silence (recognizer (at_rest "Sphinx" None)) (Some 7) "en-US" 0
     = (0, Err (mkExn UnknownValueError ""))
  /\ SpeechReg.transcribe_speech silence "Sphinx" "en-US" None (at_rest "Sphinx" None) 0
     = mkRun (at_rest "Sphinx" None) 0
             [EvRecognize Sphinx (Some 7) (Err (mkExn UnknownValueError ""))]
             (Returns (PyStr "Error: Speech not understood"))
  /\ SpeechMod.transcribe_speech silence "Wit.ai" "en-US" (Some "a key")
                                 (at_rest "Wit.ai" (Some "a key")) 0
     = mkRun (at_rest "Wit.ai" (Some "a key")) 0
             [EvRecognize WitAi (Some 7) (Err (mkExn UnknownValueError ""))]
             (Returns (PyStr "Error: Could not understand audio")).
Proof.
  pose proof (silent_audio_is_not_understood
                silence "en-US" None (at_rest "Sphinx" None) 0 0 (Some 7)
                (mkExn UnknownValueError "") eq_refl eq_refl) as (_ & Hsphinx & _).
  pose proof (silent_audio_is_not_understood
                silence "en-US" (Some "a key") (at_rest "Wit.ai" (Some "a key")) 0 0 (Some 7)
                (mkExn UnknownValueError "") eq_refl eq_refl) as (_ & _ & Hwit & _).
  assert (Hk : "a key" <> "") by discriminate.
  exact (conj eq_refl (conj eq_refl (conj (proj2 (Hsphinx eq_refl))
                                          (proj1 (Hwit "a key" eq_refl Hk eq_refl))))).
Defined.

(** C6, as the code has it.  A failure becomes an error text, and the
    text begins with "Error: " except in two places.  When the recogniser
    raises, [transcribe_speech] returns a text that begins with "Error: ";
    in speech_reg.py the text for a [sr.RequestError] begins with
    "API Error: " instead.  When a backend of the select box makes no call
    (the Wit.ai key or the audio is missing) the text begins with
    "Error: ".  After a [stop_recording] on a recording session the
    transcript is that text when the recogniser raised, and the recognised
    text when it returned; in speech_mod.py, when the capture did not
    complete, it is a text that begins with "Recording error: ".  So with
    a backend of the select box the transcript after such a stop (in
    speech_reg.py: one that returns) is a text some recogniser returned or
    a text with one of these prefixes. *)
Theorem failures_become_error_texts
        {World} (E : Env World) (api language : string) (key : option string)
        (s : Session) (w : World) :
  (forall b a e,
      In (EvRecognize b a (Err e)) (trace (SpeechMod.transcribe_speech E api language key s w)) ->
      exists m, outcome (SpeechMod.transcribe_speech E api language key s w) = Returns (PyStr m)
                /\ prefix "Error: " m = true)
  /\ (forall b a e,
         In (EvRecognize b a (Err e)) (trace (SpeechReg.transcribe_speech E api language key s w)) ->
         exists m, outcome (SpeechReg.transcribe_speech E api language key s w) = Returns (PyStr m)
                   /\ prefix (match exn_class_of e with
                              | RequestError => "API Error: "
                              | _ => "Error: "
                              end) m = true)
  /\ (In api api_options ->
      (trace (SpeechMod.transcribe_speech E api language key s w) = [] ->
       exists m, outcome (SpeechMod.transcribe_speech E api language key s w) = Returns (PyStr m)
                 /\ prefix "Error: " m = true)
      /\ (trace (SpeechReg.transcribe_speech E api language key s w) = [] ->
          exists m, outcome (SpeechReg.transcribe_speech E api language key s w) = Returns (PyStr m)
                    /\ prefix "Error: " m = true))
  /\ (recording s = true ->
      (forall a, ~ In (EvListen (Ok a)) (trace (SpeechMod.stop_recording E s w))) ->
      exists m, transcript (session_after (SpeechMod.stop_recording E s w)) = PyStr m
                /\ prefix "Recording error: " m = true)
  /\ (forall b a e,
         In (EvRecognize b a (Err e)) (trace (SpeechMod.stop_recording E s w)) ->
         exists m, transcript (session_after (SpeechMod.stop_recording E s w)) = PyStr m
                   /\ prefix "Error: " m = true)
  /\ (forall b a e,
         In (EvRecognize b a (Err e)) (trace (SpeechReg.stop_recording E s w)) ->
         exists m, transcript (session_after (SpeechReg.stop_recording E s w)) = PyStr m
                   /\ prefix (match exn_class_of e with
                              | RequestError => "API Error: "
                              | _ => "Error: "
                              end) m = true)
  /\ (forall b a t,
         (In (EvRecognize b a (Ok t)) (trace (SpeechMod.stop_recording E s w)) ->
          transcript (session_after (SpeechMod.stop_recording E s w)) = PyStr t)
         /\ (In (EvRecognize b a (Ok t)) (trace (SpeechReg.stop_recording E s w)) ->
             transcript (session_after (SpeechReg.stop_recording E s w)) = PyStr t))
  /\ (recording s = true -> In (selected_api s) api_options ->
      (exists m, transcript (session_after (SpeechMod.stop_recording E s w)) = PyStr m
                 /\ ((exists b a, In (EvRecognize b a (Ok m))
                                     (trace (SpeechMod.stop_recording E s w)))
                     \/ prefix "Error: " m = true
                     \/ prefix "Recording error: " m = true))
      /\ (outcome (SpeechReg.stop_recording E s w) = Returns tt ->
          exists m, transcript (session_after (SpeechReg.stop_recording E s w)) = PyStr m
                    /\ ((exists b a, In (EvRecognize b a (Ok m))
                                        (trace (SpeechReg.stop_recording E s w)))
                        \/ prefix "Error: " m = true
                        \/ prefix "API Error: " m = true))).
Proof.
  repeat apply conj.
  - intros b a e; unfold_adapter; repeat split_match; cbn [In]; intro Hin; error_text prefix_append.
  - intros b a e; unfold_adapter; repeat split_match; cbn [In]; intro Hin; error_text prefix_append.
  - intros [<- | [<- | [<- | []]]]; split;
      unfold_adapter; cbn [String.eqb Ascii.eqb Bool.eqb];
      repeat split_match; intro Hnil; error_text prefix_append.
  - intros Hrec. unfold_all. rewrite Hrec. attributes.
    repeat split_more; intro Hnone;
      try solve [exfalso; eapply Hnone; cbn [In]; eauto 6];
      error_text prefix_append.
  - intros b a e. unfold_all. repeat split_more; cbn [In]; intro Hin; error_text prefix_append.
  - intros b a e. unfold_all. repeat split_more; cbn [In]; intro Hin; error_text prefix_append.
  - intros b a t. split; unfold_all; repeat split_more; cbn [In]; intro Hin; error_text prefix_append;
      reflexivity.
  - intros Hrec Hopt. split.
    + unfold_all. rewrite Hrec. attributes.
      destruct Hopt as [H | [H | [H | []]]];
        repeat first [rewrite <- H; attributes | split_more];
        eexists; (split; [reflexivity |]);
        first [ left; eexists _, _; cbn [In]; solve [eauto 8]
              | right; left; first [reflexivity | apply (prefix_append "Error: ")]
              | right; right; apply (prefix_append "Recording error: ") ].
    + unfold_all. rewrite Hrec. attributes.
      destruct Hopt as [H | [H | [H | []]]];
        repeat first [rewrite <- H; attributes | split_more];
        intro Hret; try discriminate Hret;
        eexists; (split; [reflexivity |]);
        first [ left; eexists _, _; cbn [In]; solve [eauto 8]
              | right; left; first [reflexivity | apply (prefix_append "Error: ")]
              | right; right; apply (prefix_append "API Error: ") ].
Qed.

Lemma failures_become_error_texts_witness :
  recording (on_air "Google" None) = true
  /\ (forall a, ~ In (EvListen (Ok a))
                    (trace (SpeechMod.stop_recording unplugged (on_air "Google" None) 2)))
  /\ (exists m,
         transcript (session_after (SpeechMod.stop_recording unplugged (on_air "Google" None) 2))
         = PyStr m
         /\ prefix "Recording error: " m = true)
  /\ In (EvRecognize Google (Some 7) (Err (mkExn RequestError "recognition connection failed")))
        (trace (SpeechReg.stop_recording offline (on_air "Google" None) 2))
  /\ (exists m,
         transcript (session_after (SpeechReg.stop_recording offline (on_air "Google" None) 2))
         = PyStr m
         /\ prefix "API Error: " m = true).
Proof.
  assert (Hnone : forall a,
             ~ In (EvListen (Ok a))
                  (trace (SpeechMod.stop_recording unplugged (on_air "Google" None) 2))).
  { intros a Hin. vm_compute in Hin.
    repeat match goal with
           | H : _ \/ _ |- _ => destruct H
           end; try discriminate; contradiction. }
  assert (Hin : In (EvRecognize Google (Some 7)
                                (Err (mkExn RequestError "recognition connection failed")))
                   (trace (SpeechReg.stop_recording offline (on_air "Google" None) 2)))
    by (vm_compute; tauto).
  pose proof (failures_become_error_texts
                unplugged "Google" "en-US" None (on_air "Google" None) 2)
    as (_ & _ & _ & Hcapture & _).
  pose proof (failures_become_error_texts
                offline "Google" "en-US" None (on_air "Google" None) 2)
    as (_ & _ & _ & _ & _ & Hreg & _).
  exact (conj eq_refl
              (conj Hnone
                    (conj (Hcapture eq_refl Hnone)
                          (conj Hin (Hreg _ _ _ Hin))))).
Defined.

(** C2, as the code has it.  [start_recording] sets the recording flag
    whatever the session was, so from an idle session it gives a recording
    one.  It is no guarded no-op: it does not look at the flag, and every
    call, also one on a recording session, begins by constructing a
    [sr.Microphone()]; when the call returns, the microphone it has made is
    the [audio_source] of the session (in speech_mod.py the recogniser it
    has made is stored as well; in speech_reg.py the device was opened once
    to calibrate).  [main] calls [start_recording] exactly when the Start
    button returns true, whatever the flag, and gives that button
    [disabled] = the recording flag the script run began with. *)
Theorem start_recording_is_not_guarded
        {World Time} (E : Env World) (passed : Time -> Time -> bool)
        (ui : Inputs) (now : Time) (b b' : SpeechModMain.Blink)
        (s : Session) (w : World) (p : Page) :
  recording (session_after (SpeechMod.start_recording E s w)) = true
  /\ recording (session_after (SpeechReg.start_recording E s w)) = true
  /\ (exists r rest, trace (SpeechMod.start_recording E s w) = EvMicrophone r :: rest)
  /\ (exists r rest, trace (SpeechReg.start_recording E s w) = EvMicrophone r :: rest)
  /\ (outcome (SpeechMod.start_recording E s w) = Returns tt ->
      exists m r,
        trace (SpeechMod.start_recording E s w) = [EvMicrophone (Ok m); EvRecognizer (Ok r)]
        /\ audio_source (session_after (SpeechMod.start_recording E s w)) = Some m
        /\ recognizer (session_after (SpeechMod.start_recording E s w)) = r)
  /\ (outcome (SpeechReg.start_recording E s w) = Returns tt ->
      exists m,
        trace (SpeechReg.start_recording E s w)
        = [EvMicrophone (Ok m); EvOpen m; EvAdjust (Ok tt); EvClose m]
        /\ audio_source (session_after (SpeechReg.start_recording E s w)) = Some m)
  /\ (start_pressed ui = true ->
      (exists r rest,
          trace (SpeechModMain.main E passed ui now b s w) = EvMicrophone r :: rest)
      /\ (exists r rest, trace (SpeechRegMain.main E ui s w) = EvMicrophone r :: rest))
  /\ (start_pressed ui = false ->
      microphones_made (trace (SpeechModMain.main E passed ui now b s w)) = 0
      /\ microphones_made (trace (SpeechRegMain.main E ui s w)) = 0)
  /\ (outcome (SpeechModMain.main E passed ui now b s w) = Returns (b', p) ->
      start_disabled p = recording s)
  /\ (outcome (SpeechRegMain.main E ui s w) = Returns p ->
      start_disabled p = recording s).
Proof.
  repeat apply conj.
  - by_cases (@mod_transcribe_cases) (@reg_transcribe_cases); reflexivity.
  - by_cases (@mod_transcribe_cases) (@reg_transcribe_cases); reflexivity.
  - by_cases (@mod_transcribe_cases) (@reg_transcribe_cases); eexists _, _; reflexivity.
  - by_cases (@mod_transcribe_cases) (@reg_transcribe_cases); eexists _, _; reflexivity.
  - by_pages (@mod_transcribe_routes) (@reg_transcribe_routes);
      intro Hret; try discriminate Hret.
    eexists _, _. repeat split.
  - by_pages (@mod_transcribe_routes) (@reg_transcribe_routes);
      intro Hret; try discriminate Hret.
    match goal with
    | u : unit |- _ => destruct u
    end.
    eexists. split; reflexivity.
  - intro Hstart. split;
      by_pages (@mod_transcribe_routes) (@reg_transcribe_routes);
      first [congruence | eexists _, _; reflexivity].
  - intro Hstart. split;
      by_pages (@mod_transcribe_routes) (@reg_transcribe_routes);
      try congruence;
      repeat match goal with
             | H : _ = [] \/ _ |- _ => destruct H as [-> | (? & ? & ? & -> & _)]
             end;
      reflexivity.
  - by_pages (@mod_transcribe_routes) (@reg_transcribe_routes);
      intro Hp; try discriminate Hp; injection Hp as <-; subst;
      cbn [start_disabled];
      solve [reflexivity | assumption | symmetry; assumption].
  - by_pages (@mod_transcribe_routes) (@reg_transcribe_routes);
      intro Hp; try discriminate Hp; injection Hp as <-; subst;
      cbn [start_disabled];
      solve [reflexivity | assumption | symmetry; assumption].
Qed.

Lemma start_recording_is_not_guarded_witness :
  outcome (SpeechReg.start_recording studio (on_air "Google" None) 2) = Returns tt
  /\ (exists m,
         trace (SpeechReg.start_recording studio (on_air "Google" None) 2)
         = [EvMicrophone (Ok m); EvOpen m; EvAdjust (Ok tt); EvClose m]
         /\ audio_source (session_after
                            (SpeechReg.start_recording studio (on_air "Google" None) 2))
            = Some m)
  /\ start_pressed (press "Google" "" true false false) = true
  /\ (exists r rest,
         trace (SpeechRegMain.main studio (press "Google" "" true false false)
                                   (on_air "Google" None) 2)
         = EvMicrophone r :: rest)
  /\ start_pressed (press "Google" "" false true false) = false
  /\ microphones_made
       (trace (SpeechRegMain.main studio (press "Google" "" false true false)
                                  (on_air "Google" None) 2)) = 0.
Proof.
  pose proof (start_recording_is_not_guarded
                studio tenths (press "Google" "" true false false) 0
                (new_blink 0) (new_blink 0) (on_air "Google" None) 2
                (mkPage true false (Some false) true None (PyStr "") (Some (PyStr "", true))))
    as (_ & _ & _ & _ & _ & Hstored & Hpressed & _).
  pose proof (start_recording_is_not_guarded
                studio tenths (press "Google" "" false true false) 0
                (new_blink 0) (new_blink 0) (on_air "Google" None) 2
                (mkPage true false (Some false) true None (PyStr "") (Some (PyStr "", true))))
    as (_ & _ & _ & _ & _ & _ & _ & Hnot & _).
  exact (conj eq_refl
              (conj (Hstored eq_refl)
                    (conj eq_refl
                          (conj (proj2 (Hpressed eq_refl))
                                (conj eq_refl (proj2 (Hnot eq_refl))))))).
Defined.

(** One handler leaves as many streams open as it found, for every
    library that obeys the laws of the device. *)
Lemma handle_closes_what_it_opens {World} (E : Env World) (streams : World -> nat)
      (i : Intent) (s : Session) (w : World) :
  DeviceLaws E streams ->
  streams (world_after (SpeechMod.handle E i s w)) = streams w
  /\ streams (world_after (SpeechReg.handle E i s w)) = streams w.
Proof.
  intros [Lopen Lfail Lclose Lmic Lrec Ladj Llisten Lgoogle Lsphinx Lwit].
  destruct i; split; unfold_all; repeat split_more;
    repeat match goal with
           | H : enter E _ _ = (_, Ok _) |- _ => apply Lopen in H
           | H : enter E _ _ = (_, Err _) |- _ => apply Lfail in H
           | H : new_Microphone E _ = _ |- _ => apply Lmic in H
           | H : new_Recognizer E _ = _ |- _ => apply Lrec in H
           | H : adjust_for_ambient_noise E _ _ _ = _ |- _ => apply Ladj in H
           | H : listen E _ _ _ = _ |- _ => apply Llisten in H
           | H : recognize_google E _ _ _ _ = _ |- _ => apply Lgoogle in H
           | H : recognize_sphinx E _ _ _ _ = _ |- _ => apply Lsphinx in H
           | H : recognize_wit E _ _ _ _ = _ |- _ => apply Lwit in H
           end;
    rewrite ?Lclose in *; lia.
Qed.

Lemma run_actions_closes_what_it_opens {World} (handle : Intent -> M World unit)
      (streams : World -> nat) :
  (forall i s w, streams (world_after (handle i s w)) = streams w) ->
  forall acts s w, streams (snd (fst (run_actions handle acts s w))) = streams w.
Proof.
  intros Hstep acts.
  induction acts as [| [i | api language key_input] rest IH]; intros s w.
  - reflexivity.
  - cbn [run_actions].
    specialize (Hstep i s w).
    destruct (handle i s w) as [s1 w1 evs1 o1]. cbn [world_after] in Hstep.
    specialize (IH s1 w1).
    destruct (run_actions handle rest s1 w1) as [[s' w'] evs].
    cbn [fst snd] in *. congruence.
  - cbn [run_actions]. apply IH.
Qed.

Lemma device_lab_obeys (capture : result AudioData) (heard : result string) :
  DeviceLaws (device_lab capture heard) snd.
Proof.
  constructor; cbn; intros;
    repeat match goal with
           | H : (_, _) = (_, _) |- _ => injection H as <- ?
           end;
    first [discriminate | reflexivity].
Qed.

(** C7, as the code has it.  The device is opened only by entering a
    [with] block on the microphone and is closed when the block is left,
    however it is left.  So after every sequence of start, pause and stop
    calls (and changes of the settings), in either script and whatever the
    library answers or raises, the trace has as many closings as openings,
    and for every library that obeys the laws of the device as many streams
    are open as before the sequence: none is left open, at any point and so
    also when the sequence ends idle.  The microphone object that
    [start_recording] constructs is another matter: nothing releases it,
    and [pause_recording] and [stop_recording] leave it the
    [audio_source] of the session. *)
Theorem microphone_never_leaked
        {World} (E : Env World) (streams : World -> nat)
        (acts : list Action) (s : Session) (w : World) :
  (acquired (snd (run_actions (SpeechMod.handle E) acts s w))
   = released (snd (run_actions (SpeechMod.handle E) acts s w))
   /\ acquired (snd (run_actions (SpeechReg.handle E) acts s w))
      = released (snd (run_actions (SpeechReg.handle E) acts s w)))
  /\ (DeviceLaws E streams ->
      streams (snd (fst (run_actions (SpeechMod.handle E) acts s w))) = streams w
      /\ streams (snd (fst (run_actions (SpeechReg.handle E) acts s w))) = streams w)
  /\ audio_source (session_after (SpeechMod.pause_recording s w)) = audio_source s
  /\ audio_source (session_after (SpeechReg.pause_recording s w)) = audio_source s
  /\ audio_source (session_after (SpeechMod.stop_recording E s w)) = audio_source s
  /\ audio_source (session_after (SpeechReg.stop_recording E s w)) = audio_source s.
Proof.
  repeat apply conj.
  - apply run_actions_balanced. intros. apply mod_handle_balanced.
  - apply run_actions_balanced. intros. apply reg_handle_balanced.
  - intro Hlaws. split; apply run_actions_closes_what_it_opens; intros i s' w'.
    + exact (proj1 (handle_closes_what_it_opens E streams i s' w' Hlaws)).
    + exact (proj2 (handle_closes_what_it_opens E streams i s' w' Hlaws)).
  - by_pages (@mod_transcribe_routes) (@reg_transcribe_routes);
      first [reflexivity | congruence].
  - by_pages (@mod_transcribe_routes) (@reg_transcribe_routes);
      first [reflexivity | congruence].
  - by_pages (@mod_transcribe_routes) (@reg_transcribe_routes);
      first [reflexivity | congruence].
  - by_pages (@mod_transcribe_routes) (@reg_transcribe_routes);
      first [reflexivity | congruence].
Qed.

Lemma microphone_never_leaked_witness :
  DeviceLaws (device_lab (Err (mkExn OtherException "Stream closed")) (Ok "hello world")) snd
  /\ run_actions (SpeechMod.handle
                    (device_lab (Err (mkExn OtherException "Stream closed"))
                                (Ok "hello world")))
                 [Do Start; Do Stop] (SpeechMod.init 0) (1, 0)
     = (mkSession false (PyStr "Recording error: Stream closed") (Some 1) 2 (Some None)
                  "Google" "en-US" None,
        (3, 0),
        [EvMicrophone (Ok 1); EvRecognizer (Ok 2);
         EvOpen 1; EvListen (Err (mkExn OtherException "Stream closed")); EvClose 1])
  /\ snd (snd (fst (run_actions
                      (SpeechMod.handle
                         (device_lab (Err (mkExn OtherException "Stream closed"))
                                     (Ok "hello world")))
                      [Do Start; Do Stop] (SpeechMod.init 0) (1, 0)))) = snd (1, 0).
Proof.
  pose proof (microphone_never_leaked
                (device_lab (Err (mkExn OtherException "Stream closed")) (Ok "hello world"))
                snd [Do Start; Do Stop] (SpeechMod.init 0) (1, 0)) as (_ & Hlaws & _).
  exact (conj (device_lab_obeys _ _)
              (conj eq_refl (proj1 (Hlaws (device_lab_obeys _ _))))).
Defined.

(** C7 fails as stated: in speech_mod.py a start followed by a pause ends
    idle with one microphone constructed and nothing released, the
    microphone still being the [audio_source]; in speech_reg.py a start
    followed by a stop constructs one microphone and closes the device
    twice. *)
Lemma start_then_pause_releases_nothing :
  run_actions (SpeechMod.handle studio) [Do Start; Do Pause] (SpeechMod.init 0) 1
  = (mkSession false (PyStr "") (Some 1) 2 (Some None) "Google" "en-US" None,
     3,
     [EvMicrophone (Ok 1); EvRecognizer (Ok 2)])
  /\ microphones_made [EvMicrophone (Ok 1); EvRecognizer (Ok 2)] = 1
  /\ released [EvMicrophone (Ok 1); EvRecognizer (Ok 2)] = 0
  /\ microphones_made
       (snd (run_actions (SpeechReg.handle studio) [Do Start; Do Stop] (SpeechReg.init 0) 1))
     = 1
  /\ released
       (snd (run_actions (SpeechReg.handle studio) [Do Start; Do Stop] (SpeechReg.init 0) 1))
     = 2.
Proof. repeat apply conj; reflexivity. Qed.
